(** * PaperLens: the recommendation pipeline of [Sources/Pipeline.py]

    A shallow embedding of [Pipeline.Run]: the profile builder (lines
    49-56), the profile vectorizer (lines 60-65), the candidate filter
    (lines 71-82) and the similarity ranker (lines 84-95), together with
    the aggregator they are fed by.

    Python values are modelled as follows.
    - [str] is a list of Unicode code points, so that [str.strip] can be
      given its Unicode meaning;
    - a [dict] with string keys is a [gmap str pyval];
    - a NumPy array of rank two is a record carrying its shape and its rows;
    - an exception is a [Raise] in the [result] monad;
    - the floating-point scalars of NumPy are kept behind the interface
      [FloatOps], with one instance over the real numbers (exact
      arithmetic) and one over IEEE-754 binary32 (executable). *)

From Stdlib Require Import ZArith NArith List Sorted Permutation Reals Lra Lia.
From Stdlib Require Import String Ascii Decimal DecimalNat SpecFloat.
From stdpp Require Import base option list sorting gmap.

Local Open Scope nat_scope.

(** ** Text *)

Module Text.

(** A Python [str]: a sequence of code points. *)
Definition char := N.
Definition str := list char.

(** An ASCII literal, character by character. *)
Fixpoint lit (s : string) : str :=
  match s with
  | EmptyString => []
  | String c s' => N_of_ascii c :: lit s'
  end.

(** [str.isspace] on one character, as CPython's
    [_PyUnicode_IsWhitespace] decides it. *)
Definition py_isspace (c : char) : bool :=
  ((9 <=? c) && (c <=? 13) || (28 <=? c) && (c <=? 32)
   || (c =? 133) || (c =? 160) || (c =? 5760)
   || (8192 <=? c) && (c <=? 8202)
   || (c =? 8232) || (c =? 8233) || (c =? 8239) || (c =? 8287)
   || (c =? 12288))%N.

Fixpoint lstrip (s : str) : str :=
  match s with
  | [] => []
  | c :: s' => if py_isspace c then lstrip s' else s
  end.

Definition rstrip (s : str) : str := rev (lstrip (rev s)).

(** [s.strip()] with no argument. *)
Definition strip (s : str) : str := rstrip (lstrip s).

(** [s == ""] *)
Definition is_empty (s : str) : bool :=
  match s with [] => true | _ => false end.

(** The specification's "empty or whitespace-only". *)
Definition blank (s : str) : bool := forallb py_isspace s.

Definition digit_char (d : N) : char := (48 + d)%N.

Fixpoint uint_chars (u : Decimal.uint) : str :=
  match u with
  | Nil => []
  | D0 u' => digit_char 0 :: uint_chars u'
  | D1 u' => digit_char 1 :: uint_chars u'
  | D2 u' => digit_char 2 :: uint_chars u'
  | D3 u' => digit_char 3 :: uint_chars u'
  | D4 u' => digit_char 4 :: uint_chars u'
  | D5 u' => digit_char 5 :: uint_chars u'
  | D6 u' => digit_char 6 :: uint_chars u'
  | D7 u' => digit_char 7 :: uint_chars u'
  | D8 u' => digit_char 8 :: uint_chars u'
  | D9 u' => digit_char 9 :: uint_chars u'
  end.

(** [str(n)] for a non-negative [int]. *)
Definition str_of_nat (n : nat) : str := uint_chars (Nat.to_uint n).

(** The literal pieces of the f-string of line 82:
    [## 论文 ], [\n- 标题：] and [\n- 摘要：]. *)
Definition fmt_head : str := lit "## " ++ [35770; 25991; 32]%N.
Definition fmt_title : str := [10]%N ++ lit "- " ++ [26631; 39064; 65306]%N.
Definition fmt_abstract : str := [10]%N ++ lit "- " ++ [25688; 35201; 65306]%N.

End Text.

Import Text.

(** ** Exceptions *)

Inductive exn := AttributeError | ValueError | IndexError.

Inductive result (A : Type) :=
| Ok (a : A)
| Raise (e : exn).
Arguments Ok {A} a.
Arguments Raise {A} e.

#[global] Instance result_ret : MRet result := fun A a => Ok a.

#[global] Instance result_bind : MBind result := fun A B k m =>
  match m with
  | Ok a => k a
  | Raise e => Raise e
  end.

(** A [for] loop whose body may raise: the state is threaded from left to
    right and the first exception ends the loop. *)
Fixpoint for_each {A S} (body : S -> A -> result S) (xs : list A) (s : S)
  : result S :=
  match xs with
  | [] => Ok s
  | x :: xs' => s' ← body s x; for_each body xs' s'
  end.

(** ** Floating-point scalars *)

Class FloatOps (F : Type) := {
  f0 : F;
  fadd : F -> F -> F;
  fmul : F -> F -> F;
  fdiv : F -> F -> F;
  fsqrt : F -> F;
  (** the conversion of a count to a float *)
  fnat : nat -> F;
  (** the literal [1e-9] *)
  feps : F;
  (** the order NumPy sorts floats by *)
  flt : F -> F -> bool;
  (** [x == 0.0] *)
  feq0 : F -> bool
}.

(** [flt] is a strict weak order. Both arithmetics below satisfy it, the
    binary32 one with NaN sorted behind every other float. *)
Class FloatOrder (F : Type) `{FloatOps F} : Prop := {
  flt_asym : forall x y, flt x y = true -> flt y x = false;
  flt_negtrans : forall x y z,
    flt x y = false -> flt y z = false -> flt x z = false
}.

(** [x >= y] read as "not less than", and the ties of the order. *)
Definition fge `{FloatOps F} (x y : F) : bool := negb (flt x y).
Definition ftie `{FloatOps F} (x y : F) : bool :=
  negb (flt x y) && negb (flt y x).

(** ** Python values and dictionaries *)

#[warnings="-register-all"]
Inductive pyval (F : Type) :=
| PNone
| PBool (b : bool)
| PInt (z : Z)
| PFloat (x : F)
| PStr (s : str)
| PList (l : list (pyval F)).
Arguments PNone {F}.
Arguments PBool {F} b.
Arguments PInt {F} z.
Arguments PFloat {F} x.
Arguments PStr {F} s.
Arguments PList {F} l.

(** Truth value of an object, as [or] and [if] test it. *)
Definition truthy `{FloatOps F} (v : pyval F) : bool :=
  match v with
  | PNone => false
  | PBool b => b
  | PInt z => negb (z =? 0)%Z
  | PFloat x => negb (feq0 x)
  | PStr s => negb (is_empty s)
  | PList l => match l with [] => false | _ => true end
  end.

(** [a or b] *)
Definition py_or `{FloatOps F} (a b : pyval F) : pyval F :=
  if truthy a then a else b.

(** [v.strip()]: only a [str] has the method. *)
Definition py_strip {F} (v : pyval F) : result str :=
  match v with
  | PStr s => Ok (strip s)
  | _ => Raise AttributeError
  end.

(** A [dict] with [str] keys: a paper record as the fetchers return it. *)
Abbreviation dict F := (gmap str (pyval F)).

(** [d.get(k, default)] *)
Definition dict_get {F} (d : dict F) (k : str) (default : pyval F)
  : pyval F :=
  match d !! k with
  | Some v => v
  | None => default
  end.

(** [d.setdefault(k, default)], for its effect on [d]. *)
Definition dict_setdefault {F} (d : dict F) (k : str) (default : pyval F)
  : dict F :=
  match d !! k with
  | Some _ => d
  | None => <[k := default]> d
  end.

Definition k_title : str := lit "title".
Definition k_abstract : str := lit "abstract".
Definition k_Similarity : str := lit "Similarity".

(** ** Arrays of rank two *)

Record ndarray (F : Type) := {
  nrows : nat;
  ncols : nat;
  rows : list (list F)
}.
Arguments nrows {F} _.
Arguments ncols {F} _.
Arguments rows {F} _.

(** The rows agree with the shape. *)
Definition well_shaped {F} (a : ndarray F) : Prop :=
  length (rows a) = nrows a /\ Forall (fun r => length r = ncols a) (rows a).

(** [a.size] *)
Definition size {F} (a : ndarray F) : nat := nrows a * ncols a.

(** ** The collaborators of the pipeline *)

(** [Embedder]: [Encode] maps N texts to an array of shape (N, D), where D
    is the property [dimensions]. *)
Record Embedder (F : Type) := {
  Encode : list str -> ndarray F;
  dimensions : nat
}.
Arguments Encode {F} _ _.
Arguments dimensions {F} _.

Record Embedder_ok {F} (e : Embedder F) : Prop := {
  Encode_shaped : forall texts, well_shaped (Encode e texts);
  Encode_nrows : forall texts, nrows (Encode e texts) = length texts;
  Encode_ncols : forall texts, ncols (Encode e texts) = dimensions e
}.

Record Config := { TOP_K : Z }.

Section Pipeline.

Context {F : Type} `{FloatOps F}.

(** [self.embedder] and [self.config] *)
Variable embedder : Embedder F.
Variable config : Config.

(** What an f-string field renders for a value that is not a [str]
    ([format(v, "")] of the built-in types), left open. *)
Variable format_value : pyval F -> str.

Definition py_format (v : pyval F) : str :=
  match v with
  | PStr s => s
  | _ => format_value v
  end.

(** *** NumPy *)

(** [np.add.reduce]: the first element starts the sum. *)
Definition fsum (xs : list F) : F :=
  match xs with
  | [] => f0
  | x :: xs' => fold_left fadd xs' x
  end.

(** [np.zeros((n, m))] *)
Definition zeros (n m : nat) : ndarray F :=
  {| nrows := n; ncols := m; rows := repeat (repeat f0 m) n |}.

Definition column (j : nat) (a : ndarray F) : list F :=
  map (fun r => nth j r f0) (rows a).

(** [a.mean(axis = 0, keepdims = True)] *)
Definition mean_axis0 (a : ndarray F) : ndarray F :=
  {| nrows := 1;
     ncols := ncols a;
     rows := [map (fun j => fdiv (fsum (column j a)) (fnat (nrows a)))
                  (seq 0 (ncols a))] |}.

(** [np.linalg.norm(a)]: the square root of the sum of the squares of
    all entries. *)
Definition norm (a : ndarray F) : F :=
  fsqrt (fsum (map (fun x => fmul x x) (concat (rows a)))).

(** [a /= c] *)
Definition div_scalar (a : ndarray F) (c : F) : ndarray F :=
  {| nrows := nrows a;
     ncols := ncols a;
     rows := map (map (fun x => fdiv x c)) (rows a) |}.

Definition dot (u v : list F) : F := fsum (zip_with fmul u v).

(** [(a @ b.T).ravel()]: the inner dimensions must agree. *)
Definition matmul_T_ravel (a b : ndarray F) : result (list F) :=
  if ncols a =? ncols b
  then Ok (flat_map (fun r => map (dot r) (rows b)) (rows a))
  else Raise ValueError.

(** One step of the insertion sort of indices: [i] goes in front of the
    first index whose key is greater than its own. *)
Fixpoint insert_index (key : nat -> F) (i : nat) (sorted : list nat)
  : list nat :=
  match sorted with
  | [] => [i]
  | j :: sorted' =>
      if flt (key i) (key j) then i :: j :: sorted'
      else j :: insert_index key i sorted'
  end.

(** [np.argsort(a)]: the indices of [a] in ascending order of their
    entries. NumPy's default kind promises no order among equal
    entries; the model fixes one of the sorts that it admits, the
    insertion sort, which keeps equal entries in index order. What
    holds of every result that NumPy may return is stated over
    [ascending_order] below. *)
Definition argsort (a : list F) : list nat :=
  fold_left (fun sorted i => insert_index (fun k => nth k a f0) i sorted)
            (seq 0 (length a)) [].

(** [l[:k]] *)
Definition slice_to (k : Z) {A} (l : list A) : list A :=
  if (0 <=? k)%Z then take (Z.to_nat k) l
  else take (length l - Z.to_nat (- k)) l.

(** [l[i]] for an index that is not negative. *)
Definition index {A} (l : list A) (i : nat) : result A :=
  match l !! i with
  | Some x => Ok x
  | None => Raise IndexError
  end.

(** *** Profile Vectorizer (lines 60-65) *)

Definition ProfileVectorizer (personasTexts : list str) : ndarray F :=
  let embeddings := Encode embedder personasTexts in
  if size embeddings =? 0 then zeros 1 (dimensions embedder)
  else
    let personasVecs := mean_axis0 embeddings in
    div_scalar personasVecs (fadd (norm personasVecs) feps).

(** *** Candidate Filter (lines 71-82) *)

Record filter_state := {
  totalPapers : nat;
  paperCandidates : list (dict F);
  paperTexts : list str
}.

(** The f-string of line 82. *)
Definition paper_text (n : nat) (title abstractNote : pyval F) : str :=
  fmt_head ++ str_of_nat n ++ fmt_title ++ py_format title
           ++ fmt_abstract ++ py_format abstractNote.

Definition keep (st : filter_state) (rawPaper : dict F)
    (title abstractNote : pyval F) : filter_state :=
  let n := S (totalPapers st) in
  {| totalPapers := n;
     paperCandidates := paperCandidates st ++ [rawPaper];
     paperTexts := paperTexts st ++ [paper_text n title abstractNote] |}.

(** The body of the loop. The [and] of line 77 does not evaluate its
    right operand when the left one is false. *)
Definition filter_body (st : filter_state) (rawPaper : dict F)
  : result filter_state :=
  let title := py_or (dict_get rawPaper k_title (PStr [])) (PStr []) in
  let abstractNote :=
    py_or (dict_get rawPaper k_abstract (PStr [])) (PStr []) in
  t ← py_strip title;
  if is_empty t then
    a ← py_strip abstractNote;
    if is_empty a then Ok st
    else Ok (keep st rawPaper title abstractNote)
  else Ok (keep st rawPaper title abstractNote).

Definition CandidateFilter (rawDataset : list (dict F))
  : result filter_state :=
  for_each filter_body rawDataset
    {| totalPapers := 0; paperCandidates := []; paperTexts := [] |}.

(** *** Similarity Ranker (lines 84-95) *)

Definition paperSimilarity (embeddings personasVecs : ndarray F)
  : result (list F) :=
  if negb (size embeddings =? 0) then matmul_T_ravel embeddings personasVecs
  else Ok [].

Definition rankOrder (similarity : list F) : list nat :=
  slice_to (TOP_K config) (rev (argsort similarity)).

(** The body of the loop of lines 91-95. *)
Definition recommend (candidates : list (dict F)) (similarity : list F)
    (paperRecommendations : list (dict F)) (i : nat)
  : result (list (dict F)) :=
  c ← index candidates i;
  s ← index similarity i;
  let paper := <[k_Similarity := PFloat s]> c in
  let paper :=
    dict_setdefault paper k_abstract (dict_get paper k_abstract (PStr [])) in
  Ok (paperRecommendations ++ [paper]).

Definition SimilarityRanker (candidates : list (dict F))
    (texts : list str) (personasVecs : ndarray F)
  : result (list (dict F)) :=
  let embeddings := Encode embedder texts in
  similarity ← paperSimilarity embeddings personasVecs;
  for_each (recommend candidates similarity) (rankOrder similarity) [].

(** *** The run, from the profile texts and the fetched records to the
    recommendations handed to the renderer *)

Definition Run (personasTexts : list str) (rawDataset : list (dict F))
  : result (list (dict F)) :=
  let personasVecs := ProfileVectorizer personasTexts in
  st ← CandidateFilter rawDataset;
  SimilarityRanker (paperCandidates st) (paperTexts st) personasVecs.

End Pipeline.

(** ** The two arithmetics *)

(** Exact arithmetic over the real numbers: rounding is not modelled. *)
Module Exact.

#[global] Instance R_FloatOps : FloatOps R := {|
  f0 := 0%R;
  fadd := Rplus;
  fmul := Rmult;
  fdiv := Rdiv;
  fsqrt := sqrt;
  fnat := INR;
  feps := (/ 10 ^ 9)%R;
  flt := fun x y => if Rlt_dec x y then true else false;
  feq0 := fun x => if Req_dec_T x 0%R then true else false
|}.

(** The sum of the squares that [norm] takes the root of. *)
Definition squares (xs : list R) : R := fsum (map (fun x => fmul x x) xs).

End Exact.

(** IEEE-754 binary32, the [float32] of NumPy, rounding to nearest even. *)
Module Binary32.

Definition prec : Z := 24.
Definition emax : Z := 128.

Definition of_Z (z : Z) : spec_float := binary_normalize prec emax z 0 false.

Definition is_nan (x : spec_float) : bool :=
  match x with S754_nan => true | _ => false end.

(** A zero of either sign, and a float that is neither infinite nor
    NaN. *)
Definition is_zero (x : spec_float) : bool :=
  match x with S754_zero _ => true | _ => false end.

Definition is_finite (x : spec_float) : bool :=
  match x with S754_zero _ | S754_finite _ _ _ => true | _ => false end.

(** NumPy orders floats by [<] and puts NaN behind everything else. *)
Definition sort_lt (x y : spec_float) : bool :=
  SFltb x y || (is_nan y && negb (is_nan x)).

#[global] Instance b32_FloatOps : FloatOps spec_float := {|
  f0 := S754_zero false;
  fadd := SFadd prec emax;
  fmul := SFmul prec emax;
  fdiv := SFdiv prec emax;
  fsqrt := SFsqrt prec emax;
  fnat := fun n => of_Z (Z.of_nat n);
  feps := SFdiv prec emax (of_Z 1) (of_Z (10 ^ 9));
  flt := sort_lt;
  feq0 := fun x => SFeqb x (S754_zero false)
|}.

(** A rank that [sort_lt] compares lexicographically: the class of the
    float, then its exponent and its mantissa, both negated under a
    negative sign. *)
Definition rank (x : spec_float) : Z * Z * Z :=
  match x with
  | S754_nan => (3, 0, 0)
  | S754_infinity false => (2, 0, 0)
  | S754_infinity true => (-2, 0, 0)
  | S754_zero _ => (0, 0, 0)
  | S754_finite false m e => (1, e, Zpos m)
  | S754_finite true m e => (-1, - e, Zneg m)
  end%Z.

Definition lex_lt (a b : Z * Z * Z) : Prop :=
  let '(a1, a2, a3) := a in
  let '(b1, b2, b3) := b in
  (a1 < b1 \/ (a1 = b1 /\ (a2 < b2 \/ (a2 = b2 /\ a3 < b3))))%Z.

End Binary32.

(** ** Aggregator *)

(** Modelled from the spec: the class [Aggregator] of
    [FetchPaper/Aggregator.py] and the fetchers it holds, which are not
    among the sources. A fetcher answers a date range and the per-source
    options with a sequence of records; [fetch_all] calls the fetchers in
    the configured order and appends what each returns to the merged
    sequence, comparing no record with another. *)
Record Fetcher (F O : Type) := {
  fetch : str -> str -> O -> list (dict F)
}.
Arguments fetch {F O} _ _ _ _.

(** Modelled from the spec: [Aggregator.fetch_all], the loop over the
    configured fetchers that section 4.2 describes; the per-source
    options are handed to every fetcher as they are. *)
Definition fetch_all {F O} (fetchers : list (Fetcher F O))
    (day nextDay : str) (options : O) : list (dict F) :=
  fold_left (fun merged f => merged ++ fetch f day nextDay options)
            fetchers [].

(** ** Vocabulary of the specification *)

(** A field that is absent from the record or bound to [None]. *)
Definition missing {F} (o : option (pyval F)) : Prop :=
  o = None \/ o = Some PNone.

(** An optional string field, as the fetchers promise for [title] and
    [abstract]. *)
Definition optional_str {F} (o : option (pyval F)) : Prop :=
  missing o \/ exists s, o = Some (PStr s).

Definition record_ok {F} (r : dict F) : Prop :=
  optional_str (r !! k_title) /\ optional_str (r !! k_abstract).

(** The text of a field, empty when the field is missing. *)
Definition field_text {F} (r : dict F) (k : str) : str :=
  match r !! k with
  | Some (PStr s) => s
  | _ => []
  end.

(** Both the title and the abstract are empty or whitespace-only. *)
Definition dropped {F} (r : dict F) : bool :=
  blank (field_text r k_title) && blank (field_text r k_abstract).

(** The text block of the [n]-th kept record. *)
Definition text_block (n : nat) (title abstractNote : str) : str :=
  fmt_head ++ str_of_nat n ++ fmt_title ++ title ++ fmt_abstract
           ++ abstractNote.

(** The order of a stable ascending sort of indices by [key]: [i] comes
    before [j] when its key is smaller, or when the keys tie and [i] is
    the smaller index. *)
Definition before `{FloatOps F} (key : nat -> F) (i j : nat) : Prop :=
  flt (key j) (key i) = false /\ (flt (key i) (key j) = true \/ i < j).

(** What NumPy promises of the result of [np.argsort(a)], whatever the
    kind of the sort: every index of [a] is listed once, and no entry is
    smaller than one listed before it. The order among equal entries is
    left open. *)
Definition ascending_order `{FloatOps F} (a : list F) (order : list nat)
  : Prop :=
  order ≡ₚ seq 0 (length a) /\
  StronglySorted (fun i j => flt (nth j a f0) (nth i a f0) = false) order.

(** Line 89 on the result [order] of the sort: [order[::-1][:TOP_K]]. *)
Definition rankOrder_of (config : Config) (order : list nat) : list nat :=
  slice_to (TOP_K config) (rev order).

(** What lines 92-94 make of the candidate [c] with the score [s]. *)
Definition recommendation {F} (c : dict F) (s : F) : dict F :=
  let paper := <[k_Similarity := PFloat s]> c in
  match c !! k_abstract with
  | Some _ => paper
  | None => <[k_abstract := PStr []]> paper
  end.

(** The recommendation [rec] was made of the [i]-th candidate and the
    [i]-th score. *)
Definition made_of {F} (candidates : list (dict F)) (similarity : list F)
    (i : nat) (rec : dict F) : Prop :=
  exists c s,
    candidates !! i = Some c /\ similarity !! i = Some s /\
    rec = recommendation c s.

(** The same as a partial function of the index. *)
Definition recommendation_at {F} (candidates : list (dict F))
    (similarity : list F) (i : nat) : option (dict F) :=
  c ← candidates !! i; s ← similarity !! i; Some (recommendation c s).

(** The reading of "ties are broken by the original aggregation order":
    of two candidates with tied scores, the one that was aggregated first
    is ranked first. [order] lists the indices of the candidates in the
    order in which they are recommended. *)
Definition ties_in_aggregation_order `{FloatOps F}
    (similarity : list F) (order : list nat) : Prop :=
  forall p q i j si sj,
    order !! p = Some i -> order !! q = Some j ->
    similarity !! i = Some si -> similarity !! j = Some sj ->
    ftie si sj = true -> i < j -> p < q.

(** The reading of "all original fields are kept and only [Similarity] is
    added". *)
Definition only_Similarity_added {F} (c rec : dict F) : Prop :=
  (forall k v, c !! k = Some v -> rec !! k = Some v) /\
  (forall k, is_Some (rec !! k) -> is_Some (c !! k) \/ k = k_Similarity).

(** ** Profile Builder (lines 41-56) *)

Module Profile.

(** A decoded JSON value, as [requests]' [json()] returns it. *)
#[warnings="-register-all"]
Inductive json (F : Type) :=
| JNull
| JBool (b : bool)
| JInt (z : Z)
| JFloat (x : F)
| JStr (s : str)
| JArr (l : list (json F))
| JObj (m : gmap str (json F)).
Arguments JNull {F}.
Arguments JBool {F} b.
Arguments JInt {F} z.
Arguments JFloat {F} x.
Arguments JStr {F} s.
Arguments JArr {F} l.
Arguments JObj {F} m.

(** The exceptions that [in], subscription and [+] can raise on such
    values. *)
Inductive json_exn := TypeError | KeyError.

Inductive attempt (A : Type) :=
| Done (a : A)
| Failed (e : json_exn).
Arguments Done {A} a.
Arguments Failed {A} e.

#[global] Instance attempt_ret : MRet attempt := fun A a => Done a.

#[global] Instance attempt_bind : MBind attempt := fun A B k m =>
  match m with
  | Done a => k a
  | Failed e => Failed e
  end.

(** The [for] loop over the items of the library. *)
Fixpoint for_items {A S} (body : S -> A -> attempt S) (xs : list A) (s : S)
  : attempt S :=
  match xs with
  | [] => Done s
  | x :: xs' => s' ← body s x; for_items body xs' s'
  end.

Fixpoint starts_with (needle s : str) : bool :=
  match needle, s with
  | [], _ => true
  | _ :: _, [] => false
  | a :: needle', b :: s' => (a =? b)%N && starts_with needle' s'
  end.

(** [needle in s] for two strings. *)
Fixpoint substring (needle s : str) : bool :=
  starts_with needle s
  || match s with
     | [] => false
     | _ :: s' => substring needle s'
     end.

(** [k in v] for a string [k]: a key of a [dict], an element of a [list],
    a substring of a [str]; nothing else is a container. *)
Definition py_in {F} (k : str) (v : json F) : attempt bool :=
  match v with
  | JObj m => Done (match m !! k with Some _ => true | None => false end)
  | JArr l =>
      Done (existsb (fun x => match x with
                              | JStr s => bool_decide (s = k)
                              | _ => false
                              end) l)
  | JStr s => Done (substring k s)
  | _ => Failed TypeError
  end.

(** [v[k]] for a string [k]: only a [dict] can be subscripted by it. *)
Definition py_getitem {F} (v : json F) (k : str) : attempt (json F) :=
  match v with
  | JObj m =>
      match m !! k with
      | Some x => Done x
      | None => Failed KeyError
      end
  | _ => Failed TypeError
  end.

(** [s + v] for a string [s]: only a [str] can be appended. *)
Definition py_concat {F} (s : str) (v : json F) : attempt str :=
  match v with
  | JStr t => Done (s ++ t)
  | _ => Failed TypeError
  end.

Definition k_data : str := lit "data".
Definition k_abstractNote : str := lit "abstractNote".

Record state := {
  totalPapers : nat;
  personasTexts : list str
}.

Section Builder.

Context {F : Type}.

(** The body of the loop of lines 50-56. The operands of line 55 are
    evaluated from left to right, and the [and] of line 53 does not
    test the second key when the first is missing. *)
Definition body (st : state) (paper : json F) : attempt state :=
  has_data ← py_in k_data paper;
  if (has_data : bool) then
    dataField ← py_getitem paper k_data;
    has_title ← py_in k_title dataField;
    if (has_title : bool) then
      has_abstract ← py_in k_abstractNote dataField;
      if (has_abstract : bool) then
        let n := S (totalPapers st) in
        title ← py_getitem dataField k_title;
        text ← py_concat (fmt_head ++ str_of_nat n ++ fmt_title) title;
        let text := text ++ fmt_abstract in
        abstractNote ← py_getitem dataField k_abstractNote;
        text ← py_concat text abstractNote;
        Done {| totalPapers := n;
                personasTexts := personasTexts st ++ [strip text] |}
      else Done st
    else Done st
  else Done st.

(** [personasTexts] after the loop over the decoded answer, a list of
    items. *)
Definition ProfileBuilder (zoteroPapers : list (json F)) : attempt state :=
  for_items body zoteroPapers {| totalPapers := 0; personasTexts := [] |}.

End Builder.

(** Whether [v] is a string. *)
Definition is_str {F} (v : json F) : bool :=
  match v with JStr _ => true | _ => false end.

(** Whether the list [l] has the string [k] among its elements. *)
Definition has_str {F} (k : str) (l : list (json F)) : bool :=
  existsb (fun x => match x with
                    | JStr s => bool_decide (s = k)
                    | _ => false
                    end) l.

(** The items on which the loop of lines 50-56 fails: what is no
    container, under [paper] or under [data]; what passes both
    membership tests and cannot be subscripted by a string; and a
    title or an abstract note that is no string. *)
Definition breaks {F} (paper : json F) : bool :=
  match paper with
  | JObj m =>
      match m !! k_data with
      | None => false
      | Some (JObj d) =>
          match d !! k_title, d !! k_abstractNote with
          | Some t, Some a => negb (is_str t && is_str a)
          | _, _ => false
          end
      | Some (JArr l) => has_str k_title l && has_str k_abstractNote l
      | Some (JStr s) => substring k_title s && substring k_abstractNote s
      | Some _ => true
      end
  | JArr l => has_str k_data l
  | JStr s => substring k_data s
  | _ => true
  end.

(** The title and the abstract note of an item that has both as strings
    under [data]. *)
Definition entry_of {F} (paper : json F) : option (str * str) :=
  match paper with
  | JObj m =>
      match m !! k_data with
      | Some (JObj d) =>
          match d !! k_title, d !! k_abstractNote with
          | Some (JStr t), Some (JStr a) => Some (t, a)
          | _, _ => None
          end
      | _ => None
      end
  | _ => None
  end.

(** The state after one more entry. *)
Definition with_entry (st : state) (e : str * str) : state :=
  {| totalPapers := S (totalPapers st);
     personasTexts := personasTexts st
       ++ [strip (text_block (S (totalPapers st)) e.1 e.2)] |}.

End Profile.

(** ** Sample data *)

Module Samples.

(** An embedder that sees only the length of a text. *)
Definition by_length `{FloatOps F} : Embedder F := {|
  Encode := fun texts =>
    {| nrows := length texts;
       ncols := 2;
       rows := map (fun t => [fnat (length t); fnat 1]) texts |};
  dimensions := 2
|}.

(** An embedder of dimensionality one that answers [u] and [v] in
    turn. *)
Definition alternating {F} (u v : F) : Embedder F := {|
  Encode := fun texts =>
    {| nrows := length texts;
       ncols := 1;
       rows := imap (fun i _ => [if Nat.even i then u else v]) texts |};
  dimensions := 1
|}.

Definition top (k : Z) : Config := {| TOP_K := k |}.

(** Values that are not strings are not rendered in the samples. *)
Definition no_format {F} (v : pyval F) : str := [].

Definition titled {F} (title : string) : dict F :=
  {[ k_title := PStr (lit title) ]}.

Definition entry {F} (title abstract : string) : dict F :=
  {[ k_title := PStr (lit title); k_abstract := PStr (lit abstract) ]}.

(** The candidates of the scenario of the specification. *)
Definition scenario {F} : list (dict F) :=
  [entry "C1" "z"; entry "" ""; entry "C3" "w"].

(** A title only, an abstract bound to [None], nothing usable, and a
    record that already has a [Similarity] field. *)
Definition only_title {F} : dict F := titled "Only a title".
Definition none_abstract {F} : dict F :=
  {[ k_title := PStr (lit "No abstract"); k_abstract := PNone ]}.
Definition nothing {F} : dict F := {[ k_title := PNone ]}.
Definition scored {F} : dict F :=
  <[k_Similarity := PStr (lit "high")]> (entry "Scored" "already").

Definition sparse {F} : list (dict F) :=
  [only_title; none_abstract; nothing; scored].

(** Two candidates whose text blocks have the same length. *)
Definition twins {F} : list (dict F) := [entry "A" "x"; entry "B" "x"].

Definition profile : list str := [lit "A x"; lit "B y"].

(** The profile vector (1, 0). *)
Definition east `{FloatOps F} : ndarray F :=
  {| nrows := 1; ncols := 2; rows := [[fnat 1; fnat 0]] |}.

(** The state in which the filter starts. *)
Definition start {F} : filter_state (F := F) :=
  {| totalPapers := 0; paperCandidates := []; paperTexts := [] |}.

(** A fetcher that returns the same records whatever it is asked. *)
Definition returning {F} (l : list (dict F)) : Fetcher F unit :=
  {| fetch := fun _ _ _ => l |}.

Definition opposed32 : Embedder spec_float :=
  alternating (Binary32.of_Z 1) (Binary32.of_Z (-1)).

(** The binary32 score that [by_length] gives both [twins] against
    [profile], and the recommendations of a run on [sparse]. *)
Definition twin_score : spec_float := S754_finite false 10610842 (-19).

Definition ranked_sparse : list (dict spec_float) :=
  [recommendation scored (S754_finite false 16082058 (-19));
   recommendation only_title (S754_finite false 15584675 (-19));
   recommendation none_abstract (S754_finite false 15087292 (-19))].

End Samples.

(** Tactics for the fields of a concrete record. *)
Ltac field_present := vm_compute; right; eexists; reflexivity.
Ltac field_missing := vm_compute; left; first [by left | by right].
Ltac solve_record_ok := split; first [field_present | field_missing].
Ltac solve_records_ok :=
  repeat (apply List.Forall_cons; [solve_record_ok|]); apply List.Forall_nil.

(** ** Vocabulary of the error cases *)

(** Whether a value is a string, and whether it is a blank one. *)
Definition is_pstr {F} (v : pyval F) : bool :=
  match v with PStr _ => true | _ => false end.

(** [rawPaper.get(k, "") or ""] *)
Definition field_or_empty `{FloatOps F} (r : dict F) (k : str) : pyval F :=
  py_or (dict_get r k (PStr [])) (PStr []).

(** The records on which line 77 raises: the title is no string, or it
    is a blank string and the abstract is no string. *)
Definition raises_on `{FloatOps F} (r : dict F) : bool :=
  match field_or_empty r k_title with
  | PStr t => blank t && negb (is_pstr (field_or_empty r k_abstract))
  | _ => true
  end.

(** ** More sample data *)

Module MoreSamples.

(** A library item with a title and an abstract note. *)
Definition item {F} (title abstractNote : string) : Profile.json F :=
  Profile.JObj
    {[ lit "key" := Profile.JStr (lit "K1");
       Profile.k_data :=
         Profile.JObj
           {[ k_title := Profile.JStr (lit title);
              Profile.k_abstractNote := Profile.JStr (lit abstractNote) ]} ]}.

(** An item without abstract note, an item without [data] and a stray
    string among three items with a title and an abstract note. *)
Definition library {F} : list (Profile.json F) :=
  [item "A" "x  ";
   Profile.JObj
     {[ Profile.k_data :=
          Profile.JObj {[ k_title := Profile.JStr (lit "T") ]} ]};
   item "" "";
   Profile.JObj ∅;
   Profile.JStr (lit "note");
   item "B" "y"].

(** An item whose [data] is [null]. *)
Definition broken_library {F} : list (Profile.json F) :=
  [item "A" "x"; Profile.JObj {[ Profile.k_data := Profile.JNull ]}].

(** A record whose title is a number. *)
Definition numbered_title {F} : dict F :=
  {[ k_title := PInt 5; k_abstract := PStr (lit "x") ]}.

(** A profile vector that is one entry too wide for [by_length]. *)
Definition wide `{FloatOps F} : ndarray F :=
  {| nrows := 1; ncols := 3; rows := [[fnat 1; fnat 0; fnat 0]] |}.

(** What the filter makes of the scenario of the specification. *)
Definition kept_scenario : filter_state (F := spec_float) :=
  {| totalPapers := 2;
     paperCandidates := [Samples.entry "C1" "z"; Samples.entry "C3" "w"];
     paperTexts := [text_block 1 (lit "C1") (lit "z");
                    text_block 2 (lit "C3") (lit "w")] |}.

(** Records that are all blank. *)
Definition blanks {F} : list (dict F) :=
  [Samples.entry "" " "; Samples.nothing; ∅].

End MoreSamples.

(** * Properties *)

(** ** Stripping *)

Lemma lstrip_nil (s : str) : lstrip s = [] <-> blank s = true.
Proof.
  induction s as [|c s IH]; simpl; [done|].
  destruct (py_isspace c); simpl; [done|]. split; discriminate.
Qed.

Lemma lstrip_blank (s : str) : blank (lstrip s) = blank s.
Proof.
  induction s as [|c s IH]; simpl; [done|].
  destruct (py_isspace c) eqn:Hc; simpl; [done|]. by rewrite Hc.
Qed.

Lemma blank_app (s t : str) : blank (s ++ t) = blank s && blank t.
Proof. apply forallb_app. Qed.

Lemma blank_rev (s : str) : blank (rev s) = blank s.
Proof.
  induction s as [|c s IH]; simpl; [done|].
  rewrite blank_app, IH. simpl. rewrite andb_true_r. apply andb_comm.
Qed.

(** Stripping leaves nothing exactly when the string is empty or made of
    whitespace. *)
Lemma strip_empty (s : str) : is_empty (strip s) = blank s.
Proof.
  unfold strip, rstrip.
  destruct (blank s) eqn:Hb.
  - apply lstrip_nil in Hb. by rewrite Hb.
  - destruct (rev (lstrip (rev (lstrip s)))) as [|c t] eqn:Hr; [|done].
    exfalso. apply (f_equal (@rev _)) in Hr. rewrite rev_involutive in Hr.
    simpl in Hr. apply lstrip_nil in Hr.
    rewrite blank_rev, lstrip_blank in Hr. congruence.
Qed.

(** ** Candidate Filter *)

Section FilterFacts.

Context {F : Type} `{FloatOps F}.
Variable format_value : pyval F -> str.

Lemma paper_text_str (n : nat) (t a : str) :
  paper_text format_value n (PStr t) (PStr a) = text_block n t a.
Proof. reflexivity. Qed.

(** [rawPaper.get(k, "") or ""] is the text of the field. *)
Lemma get_or_empty (r : dict F) (k : str) :
  optional_str (r !! k) ->
  py_or (dict_get r k (PStr [])) (PStr []) = PStr (field_text r k).
Proof.
  unfold dict_get, field_text, py_or.
  intros [[-> | ->] | [s ->]]; simpl; try done.
  by destruct s.
Qed.

Lemma filter_body_ok (st : filter_state) (r : dict F) :
  record_ok r ->
  filter_body format_value st r =
    Ok (if dropped r then st
        else keep format_value st r (PStr (field_text r k_title))
                  (PStr (field_text r k_abstract))).
Proof.
  intros [Ht Ha]. unfold filter_body, dropped.
  rewrite (get_or_empty r k_title Ht), (get_or_empty r k_abstract Ha).
  cbn [py_strip mbind result_bind]. rewrite !strip_empty.
  destruct (blank (field_text r k_title)); [|done].
  by destruct (blank (field_text r k_abstract)).
Qed.

(** The loop, started from any state. *)
Lemma filter_loop (rawDataset : list (dict F)) (st : filter_state) :
  Forall record_ok rawDataset ->
  let kept := List.filter (fun r => negb (dropped r)) rawDataset in
  for_each (filter_body format_value) rawDataset st =
    Ok {| totalPapers := totalPapers st + length kept;
          paperCandidates := paperCandidates st ++ kept;
          paperTexts := paperTexts st ++
            imap (fun i r => text_block (S (totalPapers st + i))
                               (field_text r k_title)
                               (field_text r k_abstract)) kept |}.
Proof.
  intros Hok. revert st.
  induction Hok as [|r l Hr Hl IH]; intros st; simpl.
  - rewrite Nat.add_0_r, !app_nil_r. by destruct st.
  - rewrite (filter_body_ok st r Hr). cbn [mbind result_bind].
    destruct (dropped r); simpl; [apply IH|].
    rewrite IH. simpl. f_equal. f_equal.
    + lia.
    + by rewrite <- app_assoc.
    + rewrite <- app_assoc. simpl. rewrite Nat.add_0_r. do 2 f_equal.
      apply imap_ext. intros i x _. simpl. do 2 f_equal. lia.
Qed.

(** C4. On records whose title and abstract are optional strings, the
    candidate filter keeps exactly the records that are not [dropped]
    (a record is dropped when both its title and its abstract are
    empty or whitespace-only), in their order of arrival, and the
    [i]-th kept record (counting from zero) gets the text block
    numbered [i + 1]; the final count is the number of kept records. *)
Theorem CandidateFilter_keeps_in_order (rawDataset : list (dict F)) :
  Forall record_ok rawDataset ->
  let kept := List.filter (fun r => negb (dropped r)) rawDataset in
  CandidateFilter format_value rawDataset =
    Ok {| totalPapers := length kept;
          paperCandidates := kept;
          paperTexts :=
            imap (fun i r => text_block (S i) (field_text r k_title)
                               (field_text r k_abstract)) kept |}.
Proof.
  intros Hok. unfold CandidateFilter. by rewrite filter_loop.
Qed.

Lemma field_text_missing (r : dict F) (k : str) :
  missing (r !! k) -> field_text r k = [].
Proof. unfold field_text. by intros [-> | ->]. Qed.

(** C9. On records whose title and abstract are optional strings the
    filter raises nothing, neither on one record nor on the whole
    sequence, and a field that is absent or [None] counts as the empty
    string: a record with both fields missing is dropped, and a record
    with a missing abstract and a title that is not blank is kept, its
    text block ending with an empty abstract. *)
Theorem filter_missing_field_is_empty
    (rawDataset : list (dict F)) (st : filter_state) (r : dict F) :
  Forall record_ok rawDataset ->
  record_ok r ->
  (exists st', CandidateFilter format_value rawDataset = Ok st') /\
  (exists st', filter_body format_value st r = Ok st') /\
  (missing (r !! k_title) -> field_text r k_title = []) /\
  (missing (r !! k_abstract) -> field_text r k_abstract = []) /\
  (missing (r !! k_title) -> missing (r !! k_abstract) ->
     filter_body format_value st r = Ok st) /\
  (missing (r !! k_abstract) -> blank (field_text r k_title) = false ->
     filter_body format_value st r =
       Ok {| totalPapers := S (totalPapers st);
             paperCandidates := paperCandidates st ++ [r];
             paperTexts := paperTexts st ++
               [text_block (S (totalPapers st)) (field_text r k_title) []]
          |}).
Proof.
  intros Hall Hr.
  split; [unfold CandidateFilter; rewrite (filter_loop _ _ Hall); eauto|].
  rewrite (filter_body_ok st r Hr).
  split; [eauto|].
  split; [apply field_text_missing|].
  split; [apply field_text_missing|].
  unfold dropped. split.
  - intros Ht Ha. by rewrite !field_text_missing.
  - intros Ha Ht. by rewrite Ht, (field_text_missing _ _ Ha).
Qed.

End FilterFacts.

(** ** Profile Vectorizer *)

Section VectorizerFacts.

Context {F : Type} `{FloatOps F}.
Variable embedder : Embedder F.

Lemma zeros_shaped (n m : nat) : well_shaped (zeros n m).
Proof.
  split; simpl.
  - apply repeat_length.
  - apply Forall_forall. intros r Hr%list_elem_of_In%repeat_spec.
    subst r. apply repeat_length.
Qed.

Lemma mean_axis0_shaped (a : ndarray F) : well_shaped (mean_axis0 a).
Proof.
  split; simpl; [done|].
  constructor; [|done]. by rewrite length_map, length_seq.
Qed.

Lemma div_scalar_shaped (a : ndarray F) (c : F) :
  well_shaped a -> well_shaped (div_scalar a c).
Proof.
  intros [Hn Hc]. split; simpl.
  - by rewrite length_map.
  - apply Forall_map. eapply Forall_impl; [exact Hc|].
    intros r Hr. simpl. by rewrite length_map.
Qed.

Lemma ProfileVectorizer_shape (personasTexts : list str) :
  Embedder_ok embedder ->
  let personasVecs := ProfileVectorizer embedder personasTexts in
  well_shaped personasVecs /\
  nrows personasVecs = 1 /\
  ncols personasVecs = dimensions embedder.
Proof.
  intros Hemb. unfold ProfileVectorizer.
  destruct (size (Encode embedder personasTexts) =? 0).
  - split; [apply zeros_shaped|done].
  - split; [apply div_scalar_shaped, mean_axis0_shaped|].
    simpl. split; [done|]. apply (Encode_ncols _ Hemb).
Qed.


(** C5. With an embedder that keeps its contract, the profile vector
    has shape (1, D) for profile texts of any number, D being the
    dimensionality of the embedder, and for no profile text at all it
    is the zero vector of that shape. *)
Theorem ProfileVectorizer_dimension (personasTexts : list str) :
  Embedder_ok embedder ->
  let personasVecs := ProfileVectorizer embedder personasTexts in
  (well_shaped personasVecs /\
   nrows personasVecs = 1 /\
   ncols personasVecs = dimensions embedder /\
   exists v, rows personasVecs = [v] /\ length v = dimensions embedder) /\
  (personasTexts = [] ->
   rows personasVecs = [repeat f0 (dimensions embedder)]).
Proof.
  intros Hemb personasVecs.
  destruct (ProfileVectorizer_shape personasTexts Hemb) as (Hs & Hr & Hc).
  fold personasVecs in Hs, Hr, Hc.
  split.
  - do 3 (split; [done|]).
    destruct Hs as [Hlen Hall]. rewrite Hr in Hlen.
    destruct (rows personasVecs) as [|v [|? ?]] eqn:Hrows; try done.
    exists v. split; [done|].
    apply Forall_inv in Hall. by rewrite Hall.
  - intros ->. unfold personasVecs, ProfileVectorizer, size.
    by rewrite (Encode_nrows _ Hemb).
Qed.

End VectorizerFacts.

(** ** Sorting indices *)

Section ArgsortFacts.

Context {F : Type} `{FloatOrder F}.

Lemma flt_trans_l (x y z : F) :
  flt x y = true -> flt z y = false -> flt x z = true.
Proof.
  intros Hxy Hzy. destruct (flt x z) eqn:Hxz; [done|].
  by rewrite (flt_negtrans x z y Hxz Hzy) in Hxy.
Qed.

Lemma flt_trans_r (x y z : F) :
  flt x y = true -> flt x z = false -> flt z y = true.
Proof.
  intros Hxy Hxz. destruct (flt z y) eqn:Hzy; [done|].
  by rewrite (flt_negtrans x z y Hxz Hzy) in Hxy.
Qed.

Section Insertion.

Variable key : nat -> F.

Lemma insert_index_perm (i : nat) (l : list nat) :
  insert_index key i l ≡ₚ i :: l.
Proof.
  induction l as [|j l IH]; simpl; [done|].
  destruct (flt (key i) (key j)); [done|].
  rewrite IH. apply perm_swap.
Qed.

Lemma before_trans (i j k : nat) :
  before key i j -> before key j k -> before key i k.
Proof.
  intros [Hji Hij] [Hkj Hjk]. split.
  - apply (flt_negtrans _ (key j)); done.
  - destruct Hij as [Hij|Hij].
    + left. by apply (flt_trans_l _ (key j)).
    + destruct Hjk as [Hjk|Hjk]; [|right; lia].
      left. by apply (flt_trans_r (key j)).
Qed.

Lemma insert_index_sorted (i : nat) (l : list nat) :
  StronglySorted (before key) l ->
  Forall (fun j => j < i) l ->
  StronglySorted (before key) (insert_index key i l).
Proof.
  induction 1 as [|j l Hl IH Hj]; intros Hlt; simpl.
  - repeat constructor.
  - apply Forall_cons in Hlt as [Hji Hlt].
    destruct (flt (key i) (key j)) eqn:Hij.
    + assert (before key i j) as Hb.
      { split; [by apply flt_asym|by left]. }
      constructor; [by constructor|].
      constructor; [done|].
      eapply Forall_impl; [exact Hj|].
      intros k Hk. by apply (before_trans i j k).
    + constructor; [by apply IH|].
      rewrite insert_index_perm. constructor; [|done].
      split; [done|by right].
Qed.

(** The insertion sort over the first [n] indices. *)
Lemma insertion_sort_spec (n : nat) :
  let sorted :=
    fold_left (fun sorted i => insert_index key i sorted) (seq 0 n) [] in
  sorted ≡ₚ seq 0 n /\ StronglySorted (before key) sorted.
Proof.
  induction n as [|n IH]; [by repeat constructor|].
  cbv zeta in *. destruct IH as [IHp IHs].
  rewrite seq_S, fold_left_app. simpl. split.
  - rewrite insert_index_perm, IHp. apply Permutation_cons_append.
  - apply insert_index_sorted; [done|].
    rewrite IHp. apply Forall_forall.
    intros j Hj%list_elem_of_In%in_seq. lia.
Qed.

End Insertion.

Lemma argsort_perm (a : list F) : argsort a ≡ₚ seq 0 (length a).
Proof. apply insertion_sort_spec. Qed.

Lemma argsort_sorted (a : list F) :
  StronglySorted (before (fun k => nth k a f0)) (argsort a).
Proof. apply insertion_sort_spec. Qed.

Lemma argsort_length (a : list F) : length (argsort a) = length a.
Proof. by rewrite argsort_perm, length_seq. Qed.

Lemma flt_irrefl (x : F) : flt x x = false.
Proof.
  destruct (flt x x) eqn:Hx; [|done]. by rewrite (flt_asym x x Hx) in Hx.
Qed.

(** The insertion sort of the model is one of the sorts that NumPy's
    contract admits, and [rankOrder] is line 89 on its result. *)
Lemma argsort_ascending_order (a : list F) : ascending_order a (argsort a).
Proof.
  split; [apply argsort_perm|].
  pose proof (argsort_sorted a) as Hsorted.
  induction Hsorted as [|i l Hl IH Hi]; constructor; [done|].
  eapply Forall_impl; [exact Hi|]. by intros j [Hji _].
Qed.

Lemma rankOrder_rankOrder_of (config : Config) (similarity : list F) :
  rankOrder config similarity = rankOrder_of config (argsort similarity).
Proof. reflexivity. Qed.

End ArgsortFacts.

(** ** Lists *)

Lemma StronglySorted_rev {A} (R : relation A) (l : list A) :
  StronglySorted R l -> StronglySorted (flip R) (rev l).
Proof.
  induction 1 as [|x l Hl IH Hx]; simpl; [constructor|].
  apply StronglySorted_app_2; [|done|repeat constructor].
  intros y z Hy%list_elem_of_In%in_rev%list_elem_of_In ->%list_elem_of_singleton.
  rewrite Forall_forall in Hx. by apply Hx.
Qed.

Lemma StronglySorted_take {A} (R : relation A) (n : nat) (l : list A) :
  StronglySorted R l -> StronglySorted R (take n l).
Proof.
  intros Hl. rewrite <- (take_drop n l) in Hl.
  by apply StronglySorted_app_1_l in Hl.
Qed.

Lemma StronglySorted_lookup {A} (R : relation A) (l : list A) p q x y :
  StronglySorted R l -> l !! p = Some x -> l !! q = Some y -> p < q -> R x y.
Proof.
  intros Hl. revert p q. induction Hl as [|z l Hl IH Hz]; intros p q; [done|].
  destruct p as [|p], q as [|q]; simpl; try lia.
  - intros [= ->] Hy _. rewrite Forall_forall in Hz.
    apply Hz. by eapply list_elem_of_lookup_2.
  - intros Hx Hy Hpq. apply (IH p q); [done|done|lia].
Qed.

Lemma rev_lookup_Some {A} (l : list A) (p : nat) (x : A) :
  rev l !! p = Some x -> l !! (length l - S p) = Some x /\ p < length l.
Proof.
  replace (rev l) with (reverse l) by (unfold reverse; by rewrite <- rev_alt).
  by intros [Hx Hp]%reverse_lookup_Some.
Qed.


(** ** Similarity Ranker *)

Section RankerFacts.

Context {F : Type} `{FloatOps F}.
Variable embedder : Embedder F.
Variable config : Config.

Lemma slice_to_prefix {A} (k : Z) (l : list A) :
  exists n, slice_to k l = take n l.
Proof. unfold slice_to. destruct (0 <=? k)%Z; eauto. Qed.

Lemma slice_to_nonneg {A} (k : Z) (l : list A) :
  (0 <= k)%Z -> slice_to k l = take (Z.to_nat k) l.
Proof. unfold slice_to. intros Hk%Z.leb_le. by rewrite Hk. Qed.

Lemma rankOrder_prefix (similarity : list F) :
  exists n, rankOrder config similarity = take n (rev (argsort similarity)).
Proof. apply slice_to_prefix. Qed.

Lemma recommend_eq (candidates : list (dict F)) (similarity : list F)
    (acc : list (dict F)) (i : nat) :
  recommend candidates similarity acc i =
    (c ← index candidates i; s ← index similarity i;
     Ok (acc ++ [recommendation c s])).
Proof.
  unfold recommend. destruct (index candidates i) as [c|]; [|done].
  destruct (index similarity i) as [s|]; [|done]. simpl.
  unfold dict_setdefault, dict_get, recommendation.
  rewrite lookup_insert_ne by done.
  by destruct (c !! k_abstract).
Qed.

(** The loop of lines 91-95 appends one recommendation per index, in
    the order of the indices. *)
Lemma recommend_loop_inv (candidates : list (dict F)) (similarity : list F)
    (order : list nat) (acc out : list (dict F)) :
  for_each (recommend candidates similarity) order acc = Ok out ->
  exists recs,
    out = acc ++ recs /\
    Forall2 (made_of candidates similarity) order recs.
Proof.
  revert acc. induction order as [|i order IH]; intros acc; simpl.
  - intros [= <-]. exists []. by rewrite app_nil_r.
  - rewrite recommend_eq. unfold index.
    destruct (candidates !! i) as [c|] eqn:Hc; [|done].
    destruct (similarity !! i) as [s|] eqn:Hs; [|done].
    simpl. intros (recs & -> & Hrecs)%IH.
    exists (recommendation c s :: recs). rewrite <- app_assoc.
    split; [done|]. constructor; [|done]. by exists c, s.
Qed.

Lemma recommend_loop_ok (candidates : list (dict F)) (similarity : list F)
    (order : list nat) (acc : list (dict F)) :
  Forall (fun i => i < length candidates /\ i < length similarity) order ->
  exists out, for_each (recommend candidates similarity) order acc = Ok out.
Proof.
  intros Hall. revert acc.
  induction Hall as [|i order [Hc Hs] Hall IH]; intros acc; simpl; [eauto|].
  rewrite recommend_eq. unfold index.
  apply lookup_lt_is_Some_2 in Hc as [c ->].
  apply lookup_lt_is_Some_2 in Hs as [s ->]. simpl. apply IH.
Qed.

Lemma recommendation_Similarity (c : dict F) (s : F) :
  recommendation c s !! k_Similarity = Some (PFloat s).
Proof.
  unfold recommendation. destruct (c !! k_abstract).
  - apply lookup_insert_eq.
  - rewrite lookup_insert_ne by done. apply lookup_insert_eq.
Qed.

Lemma recommendation_abstract (c : dict F) (s : F) :
  recommendation c s !! k_abstract =
    Some (default (PStr []) (c !! k_abstract)).
Proof.
  unfold recommendation. destruct (c !! k_abstract) eqn:Hc; simpl.
  - by rewrite lookup_insert_ne.
  - apply lookup_insert_eq.
Qed.

Lemma recommendation_other (c : dict F) (s : F) (k : str) :
  k <> k_Similarity -> k <> k_abstract ->
  recommendation c s !! k = c !! k.
Proof.
  intros Hs Ha. unfold recommendation.
  destruct (c !! k_abstract); by rewrite !lookup_insert_ne.
Qed.

Lemma flat_map_singleton_length {A B} (f : A -> list B) (g : A -> B)
    (l : list A) :
  (forall x, f x = [g x]) -> length (flat_map f l) = length l.
Proof.
  intros Hf. induction l as [|x l IH]; simpl; [done|].
  by rewrite Hf, <- IH.
Qed.

(** With a one-row profile of the right width there is one score per
    row of the embeddings. *)
Lemma paperSimilarity_ok (embeddings personasVecs : ndarray F) :
  well_shaped embeddings -> well_shaped personasVecs ->
  nrows personasVecs = 1 -> ncols embeddings = ncols personasVecs ->
  0 < ncols embeddings ->
  exists similarity,
    paperSimilarity embeddings personasVecs = Ok similarity /\
    length similarity = nrows embeddings.
Proof.
  intros [He _] [Hp _] Hone Hcols Hpos.
  unfold paperSimilarity, size, matmul_T_ravel.
  destruct (nrows embeddings * ncols embeddings =? 0) eqn:Hsize; simpl.
  - exists []. split; [done|]. apply Nat.eqb_eq in Hsize. simpl. nia.
  - rewrite Hcols, Nat.eqb_refl. eexists. split; [done|].
    rewrite Hone in Hp.
    destruct (rows personasVecs) as [|v [|? ?]]; try done.
    by rewrite (flat_map_singleton_length _ (fun r => dot r v)).
Qed.

(** No candidate text: no score, whatever the profile vector. *)
Lemma paperSimilarity_empty (personasVecs : ndarray F) :
  Embedder_ok embedder ->
  paperSimilarity (Encode embedder []) personasVecs = Ok [].
Proof.
  intros Hemb. unfold paperSimilarity, size.
  by rewrite (Encode_nrows _ Hemb).
Qed.

Lemma SimilarityRanker_inv (candidates : list (dict F)) (texts : list str)
    (personasVecs : ndarray F) (recs : list (dict F)) :
  SimilarityRanker embedder config candidates texts personasVecs = Ok recs ->
  exists similarity,
    paperSimilarity (Encode embedder texts) personasVecs = Ok similarity /\
    Forall2 (made_of candidates similarity)
            (rankOrder config similarity) recs.
Proof.
  unfold SimilarityRanker.
  destruct (paperSimilarity _ _) as [similarity|]; [|done]. simpl.
  intros (recs' & -> & Hrecs)%recommend_loop_inv. by exists similarity.
Qed.

Lemma rankOrder_bound `{!FloatOrder F} (similarity : list F) :
  Forall (fun i => i < length similarity) (rankOrder config similarity).
Proof.
  destruct (rankOrder_prefix similarity) as [n ->].
  apply Forall_take, Forall_forall.
  intros i Hi%list_elem_of_In%in_rev%list_elem_of_In.
  rewrite argsort_perm in Hi.
  apply list_elem_of_In, in_seq in Hi. lia.
Qed.

(** The scores are in descending order along the ranking. *)
Lemma rankOrder_descending `{!FloatOrder F} (similarity : list F) :
  StronglySorted (flip (before (fun k => nth k similarity f0)))
                 (rankOrder config similarity).
Proof.
  destruct (rankOrder_prefix similarity) as [n ->].
  apply StronglySorted_take, StronglySorted_rev, argsort_sorted.
Qed.

Lemma made_of_at (candidates : list (dict F)) (similarity : list F)
    (i : nat) (rec : dict F) :
  made_of candidates similarity i rec <->
  recommendation_at candidates similarity i = Some rec.
Proof.
  unfold made_of, recommendation_at. split.
  - by intros (c & s & -> & -> & ->).
  - destruct (candidates !! i) as [c|]; [|done].
    destruct (similarity !! i) as [s|]; [|done].
    simpl. intros [= <-]. eauto.
Qed.

(** Recommending every index once, in order, pairs the candidates with
    their scores. *)
Lemma made_of_all (candidates : list (dict F)) (similarity : list F) :
  length similarity = length candidates ->
  Forall2 (made_of candidates similarity) (seq 0 (length candidates))
          (zip_with recommendation candidates similarity).
Proof.
  intros Hlen. apply Forall2_same_length_lookup_2.
  - rewrite length_seq, length_zip_with. lia.
  - intros i j rec Hj Hrec. apply lookup_seq in Hj as [-> _]. simpl.
    apply lookup_zip_with_Some in Hrec as (c & s & -> & Hc & Hs).
    by exists c, s.
Qed.

(** The recommendations made along two orders that are permutations of
    each other are permutations of each other. *)
Lemma made_of_perm (candidates : list (dict F)) (similarity : list F)
    (order1 order2 : list nat) (recs1 recs2 : list (dict F)) :
  order1 ≡ₚ order2 ->
  Forall2 (made_of candidates similarity) order1 recs1 ->
  Forall2 (made_of candidates similarity) order2 recs2 ->
  recs1 ≡ₚ recs2.
Proof.
  intros Hperm H1 H2.
  assert (forall order recs,
            Forall2 (made_of candidates similarity) order recs ->
            Some <$> recs = recommendation_at candidates similarity <$> order)
    as Hmap.
  { induction 1 as [|i rec order recs Hi%made_of_at _ IH]; [done|].
    by rewrite !fmap_cons, Hi, IH. }
  apply Hmap in H1, H2.
  apply (fmap_Permutation (recommendation_at candidates similarity))
    in Hperm.
  rewrite <- H1, <- H2 in Hperm.
  apply Permutation_map_inv in Hperm as (recs & Heq & Hrecs).
  apply (inj (fmap Some)) in Heq as ->. by symmetry.
Qed.

(** A [TOP_K] that is not below the number of scores keeps every
    index. *)
Lemma rankOrder_all `{!FloatOrder F} (similarity : list F) :
  (0 <= TOP_K config)%Z ->
  length similarity <= Z.to_nat (TOP_K config) ->
  rankOrder config similarity ≡ₚ seq 0 (length similarity).
Proof.
  intros HK Hall. unfold rankOrder. rewrite slice_to_nonneg by done.
  rewrite take_ge by (rewrite length_rev, argsort_length; lia).
  rewrite <- Permutation_rev. apply argsort_perm.
Qed.

Lemma rankOrder_length `{!FloatOrder F} (similarity : list F) :
  (0 <= TOP_K config)%Z ->
  length (rankOrder config similarity)
    = Nat.min (Z.to_nat (TOP_K config)) (length similarity).
Proof.
  intros HK. unfold rankOrder. rewrite slice_to_nonneg by done.
  by rewrite length_take, length_rev, argsort_length.
Qed.

(** Under the contracts the ranker raises nothing: there is one score
    per candidate and one recommendation per ranked index. *)
Lemma SimilarityRanker_returns `{!FloatOrder F}
    (candidates : list (dict F)) (texts : list str)
    (personasVecs : ndarray F) :
  Embedder_ok embedder ->
  0 < dimensions embedder ->
  length texts = length candidates ->
  well_shaped personasVecs ->
  nrows personasVecs = 1 ->
  ncols personasVecs = dimensions embedder ->
  exists similarity recs,
    paperSimilarity (Encode embedder texts) personasVecs = Ok similarity /\
    length similarity = length candidates /\
    SimilarityRanker embedder config candidates texts personasVecs
      = Ok recs /\
    Forall2 (made_of candidates similarity)
            (rankOrder config similarity) recs.
Proof.
  intros Hemb Hdim Hlen Hpv Hone Hcols.
  destruct (paperSimilarity_ok (Encode embedder texts) personasVecs)
    as (similarity & Hsim & Hn); try done.
  { apply (Encode_shaped _ Hemb). }
  { by rewrite (Encode_ncols _ Hemb). }
  { by rewrite (Encode_ncols _ Hemb). }
  rewrite (Encode_nrows _ Hemb), Hlen in Hn.
  destruct (recommend_loop_ok candidates similarity
              (rankOrder config similarity) []) as [recs Hrun].
  { eapply Forall_impl; [apply rankOrder_bound; done|].
    simpl. intros i Hi. lia. }
  exists similarity, recs. split; [done|]. split; [done|].
  split; [unfold SimilarityRanker; by rewrite Hsim|].
  by apply recommend_loop_inv in Hrun as (recs' & -> & Hrecs).
Qed.

(** Line 89 on any ascending order of the indices: the rank [p] holds
    what the sort put at place [p] from its end, and no score is
    smaller than one ranked after it. *)
Lemma rankOrder_of_lookup (order : list nat) (p i : nat) :
  rankOrder_of config order !! p = Some i ->
  order !! (length order - S p) = Some i /\ p < length order.
Proof.
  unfold rankOrder_of.
  destruct (slice_to_prefix (TOP_K config) (rev order)) as [n ->].
  intros [Hi _]%lookup_take_Some. by apply rev_lookup_Some.
Qed.

Lemma rankOrder_of_descending (similarity : list F) (order : list nat) :
  ascending_order similarity order ->
  StronglySorted
    (fun i j => flt (nth i similarity f0) (nth j similarity f0) = false)
    (rankOrder_of config order).
Proof.
  intros [_ Hsorted]. unfold rankOrder_of.
  destruct (slice_to_prefix (TOP_K config) (rev order)) as [n ->].
  apply StronglySorted_take. apply (StronglySorted_rev _ _ Hsorted).
Qed.

End RankerFacts.

Section RankerTheorems.

Context {F : Type} `{FloatOps F}.
Variable embedder : Embedder F.
Variable config : Config.

(** C1. With an embedder that keeps its contract and has a positive
    dimensionality, a non-negative [TOP_K], one text per candidate and
    a profile vector of shape (1, D), the ranker returns
    min(K, number of candidates) recommendations, every one carrying
    its score under [Similarity], and the scores are in descending
    order; when K is at least the number of candidates, the
    recommendations are those of all the candidates, each once. *)
Theorem SimilarityRanker_topK_descending `{!FloatOrder F}
    (candidates : list (dict F)) (texts : list str)
    (personasVecs : ndarray F) :
  Embedder_ok embedder ->
  0 < dimensions embedder ->
  (0 <= TOP_K config)%Z ->
  length texts = length candidates ->
  well_shaped personasVecs ->
  nrows personasVecs = 1 ->
  ncols personasVecs = dimensions embedder ->
  exists recs scores similarity,
    paperSimilarity (Encode embedder texts) personasVecs = Ok similarity /\
    SimilarityRanker embedder config candidates texts personasVecs
      = Ok recs /\
    length recs = Nat.min (Z.to_nat (TOP_K config)) (length candidates) /\
    Forall2 (fun rec s => rec !! k_Similarity = Some (PFloat s))
            recs scores /\
    StronglySorted (fun x y => fge x y = true) scores /\
    (length candidates <= Z.to_nat (TOP_K config) ->
     recs ≡ₚ zip_with recommendation candidates similarity).
Proof.
  intros Hemb Hdim HK Hlen Hpv Hone Hcols.
  destruct (SimilarityRanker_returns embedder config candidates texts
              personasVecs) as (similarity & recs & Hsim & Hn & Hrun & Hrecs);
    try done.
  exists recs,
    ((fun k => nth k similarity f0) <$> rankOrder config similarity),
    similarity.
  split; [done|]. split; [done|]. split; [|split; [|split]].
  - rewrite <- (Forall2_length _ _ _ Hrecs), <- Hn.
    by apply rankOrder_length.
  - apply Forall2_fmap_r, Forall2_flip.
    eapply Forall2_impl; [exact Hrecs|].
    intros i rec (c & s & _ & Hs & ->). simpl.
    rewrite recommendation_Similarity. do 2 f_equal.
    by rewrite nth_lookup, Hs.
  - eapply StronglySorted_fmap; [|apply rankOrder_descending; done].
    intros i j [Hij _]. unfold fge. by rewrite Hij.
  - intros Hall.
    eapply made_of_perm; [|exact Hrecs|by apply made_of_all].
    rewrite <- Hn. apply (rankOrder_all config similarity HK). lia.
Qed.

(** C2, as the code has it. The order of two recommended candidates
    with tied scores is the reverse of the order in which the ascending
    sort of line 89 left them, whichever ascending order of the indices
    [np.argsort] returns: the candidate ranked first is the one the sort
    listed last. Every rank between the two holds a candidate with the
    same tied score, so tied candidates are neighbours in the ranking.
    Nothing relates their order to the order of aggregation. *)
Theorem ties_follow_the_sort `{!FloatOrder F}
    (similarity : list F) (order : list nat) (p q i j : nat) (si sj : F) :
  ascending_order similarity order ->
  rankOrder_of config order !! p = Some i ->
  rankOrder_of config order !! q = Some j ->
  similarity !! i = Some si ->
  similarity !! j = Some sj ->
  ftie si sj = true ->
  p < q ->
  (exists a b,
     order !! a = Some j /\ order !! b = Some i /\ a < b) /\
  (forall m k sk,
     p <= m <= q ->
     rankOrder_of config order !! m = Some k ->
     similarity !! k = Some sk ->
     ftie si sk = true).
Proof.
  intros Hasc Hp Hq Hi Hj Htie Hpq. split.
  - destruct (rankOrder_of_lookup config order p i Hp) as [Hb Hpl].
    destruct (rankOrder_of_lookup config order q j Hq) as [Ha Hql].
    exists (length order - S q), (length order - S p).
    split; [done|]. split; [done|lia].
  - intros m k sk [Hpm Hmq] Hm Hk.
    pose proof (rankOrder_of_descending config similarity order Hasc) as Hs.
    unfold ftie in *. apply andb_true_iff in Htie as [Hij Hji].
    apply negb_true_iff in Hij, Hji.
    assert (flt si sk = false) as Hik.
    { destruct (decide (p = m)) as [->|Hne].
      - rewrite Hp in Hm. injection Hm as ->. rewrite Hi in Hk.
        injection Hk as ->. apply flt_irrefl.
      - pose proof (StronglySorted_lookup _ _ p m i k Hs Hp Hm ltac:(lia))
          as Hlt.
        simpl in Hlt. by rewrite !nth_lookup, Hi, Hk in Hlt. }
    assert (flt sk sj = false) as Hkj.
    { destruct (decide (m = q)) as [->|Hne].
      - rewrite Hq in Hm. injection Hm as ->. rewrite Hj in Hk.
        injection Hk as ->. apply flt_irrefl.
      - pose proof (StronglySorted_lookup _ _ m q k j Hs Hm Hq ltac:(lia))
          as Hlt.
        simpl in Hlt. by rewrite !nth_lookup, Hk, Hj in Hlt. }
    rewrite Hik. simpl. apply negb_true_iff.
    by apply (flt_negtrans _ sj).
Qed.

(** C3, as the code has it. A recommendation keeps every field of its
    candidate other than [Similarity] with its value, binds
    [Similarity] to the score whether or not the candidate had such a
    field, and has no field that the candidate lacked besides
    [Similarity] and [abstract]. *)
Theorem recommendation_keeps_fields
    (candidates : list (dict F)) (texts : list str)
    (personasVecs : ndarray F) (recs : list (dict F)) :
  SimilarityRanker embedder config candidates texts personasVecs = Ok recs ->
  exists similarity,
    paperSimilarity (Encode embedder texts) personasVecs = Ok similarity /\
    Forall2 (fun i rec => exists c s,
               candidates !! i = Some c /\ similarity !! i = Some s /\
               (forall k v, k <> k_Similarity ->
                  c !! k = Some v -> rec !! k = Some v) /\
               rec !! k_Similarity = Some (PFloat s) /\
               (forall k, is_Some (rec !! k) ->
                  is_Some (c !! k) \/ k = k_Similarity \/ k = k_abstract))
            (rankOrder config similarity) recs.
Proof.
  intros (similarity & Hsim & Hrecs)%SimilarityRanker_inv.
  exists similarity. split; [done|].
  eapply Forall2_impl; [exact Hrecs|].
  intros i rec (c & s & Hc & Hs & ->). exists c, s.
  split; [done|]. split; [done|]. split; [|split].
  - intros k v Hk Hv. destruct (decide (k = k_abstract)) as [->|Ha].
    + by rewrite recommendation_abstract, Hv.
    + by rewrite recommendation_other.
  - apply recommendation_Similarity.
  - intros k Hk.
    destruct (decide (k = k_Similarity)) as [->|Hsim']; [by auto|].
    destruct (decide (k = k_abstract)) as [->|Ha]; [by auto|].
    left. by rewrite recommendation_other in Hk.
Qed.

(** C7. With an embedder that keeps its contract, no candidate text
    gives no score and no recommendation, and nothing is raised,
    whatever the shape of the profile vector. *)
Theorem SimilarityRanker_empty (personasVecs : ndarray F) :
  Embedder_ok embedder ->
  paperSimilarity (Encode embedder []) personasVecs = Ok [] /\
  SimilarityRanker embedder config [] [] personasVecs = Ok [].
Proof.
  intros Hemb. split; [by apply paperSimilarity_empty|].
  unfold SimilarityRanker. rewrite paperSimilarity_empty by done.
  destruct (rankOrder_prefix config (@nil F)) as [n Hn]. simpl in *.
  by rewrite Hn, take_nil.
Qed.

End RankerTheorems.

(** ** The whole run *)

Section RunFacts.

Context {F : Type} `{FloatOps F}.
Variable embedder : Embedder F.
Variable config : Config.
Variable format_value : pyval F -> str.

Lemma Run_inv (personasTexts : list str) (rawDataset : list (dict F))
    (recs : list (dict F)) :
  Run embedder config format_value personasTexts rawDataset = Ok recs ->
  exists st,
    CandidateFilter format_value rawDataset = Ok st /\
    SimilarityRanker embedder config (paperCandidates st) (paperTexts st)
      (ProfileVectorizer embedder personasTexts) = Ok recs.
Proof.
  unfold Run. destruct (CandidateFilter _ _) as [st|]; [|done].
  simpl. eauto.
Qed.

Lemma CandidateFilter_ok (rawDataset : list (dict F)) :
  Forall record_ok rawDataset ->
  exists st,
    CandidateFilter format_value rawDataset = Ok st /\
    paperCandidates st
      = List.filter (fun r => negb (dropped r)) rawDataset /\
    length (paperTexts st) = length (paperCandidates st).
Proof.
  intros Hok. unfold CandidateFilter. rewrite (filter_loop _ _ _ Hok).
  eexists. split; [done|]. simpl. split; [done|]. apply length_imap.
Qed.

(** Under the contracts of the embedder and of the fetchers a run
    raises nothing and recommends min(K, kept records) papers. *)
Lemma Run_returns `{!FloatOrder F}
    (personasTexts : list str) (rawDataset : list (dict F)) :
  Embedder_ok embedder ->
  0 < dimensions embedder ->
  (0 <= TOP_K config)%Z ->
  Forall record_ok rawDataset ->
  exists recs,
    Run embedder config format_value personasTexts rawDataset = Ok recs /\
    length recs
      = Nat.min (Z.to_nat (TOP_K config))
          (length (List.filter (fun r => negb (dropped r)) rawDataset)).
Proof.
  intros Hemb Hdim HK Hok.
  destruct (CandidateFilter_ok rawDataset Hok) as (st & Hst & Hkept & Hlen).
  destruct (ProfileVectorizer_shape embedder personasTexts Hemb)
    as (Hs & Hr & Hc).
  destruct (SimilarityRanker_returns embedder config (paperCandidates st)
              (paperTexts st) (ProfileVectorizer embedder personasTexts))
    as (similarity & recs & _ & Hn & Hrun & Hrecs); try done.
  exists recs. unfold Run. rewrite Hst. simpl. split; [done|].
  rewrite <- (Forall2_length _ _ _ Hrecs), <- Hkept, <- Hn.
  by apply rankOrder_length.
Qed.

(** C10. Every recommendation that a run hands to the renderer has an
    [abstract] field. Each recommendation is made of the candidate that
    the filter kept at the ranked index and of the score that the ranker
    computed for it: where that candidate has no [abstract] field, the
    field of the recommendation is bound to the empty string, and where
    it has one, the recommendation has it with the same value. *)
Theorem recommendations_have_abstract
    (personasTexts : list str) (rawDataset : list (dict F))
    (recs : list (dict F)) :
  Run embedder config format_value personasTexts rawDataset = Ok recs ->
  Forall (fun rec => is_Some (rec !! k_abstract)) recs /\
  exists st similarity,
    CandidateFilter format_value rawDataset = Ok st /\
    paperSimilarity (Encode embedder (paperTexts st))
      (ProfileVectorizer embedder personasTexts) = Ok similarity /\
    Forall2 (fun i rec => exists c s,
               paperCandidates st !! i = Some c /\
               similarity !! i = Some s /\
               rec = recommendation c s /\
               (c !! k_abstract = None ->
                rec !! k_abstract = Some (PStr [])) /\
               (forall v, c !! k_abstract = Some v ->
                rec !! k_abstract = Some v))
            (rankOrder config similarity) recs.
Proof.
  intros (st & Hst & (similarity & Hsim & Hrecs)%SimilarityRanker_inv)%Run_inv.
  split.
  - eapply Forall2_Forall_r; [exact Hrecs|].
    apply Forall_forall. intros i _ rec (c & s & _ & _ & ->).
    by rewrite recommendation_abstract.
  - exists st, similarity. split; [done|]. split; [done|].
    eapply Forall2_impl; [exact Hrecs|].
    intros i rec (c & s & Hc & Hs & ->). exists c, s.
    split; [done|]. split; [done|]. split; [done|]. split.
    + intros Hnone. by rewrite recommendation_abstract, Hnone.
    + intros v Hv. by rewrite recommendation_abstract, Hv.
Qed.

End RunFacts.

(** ** Exact arithmetic *)

Section ExactFacts.

Import Exact.
Local Open Scope R_scope.

#[global] Instance R_FloatOrder : FloatOrder R.
Proof.
  split; simpl.
  - intros x y. destruct (Rlt_dec x y), (Rlt_dec y x); try done. lra.
  - intros x y z.
    destruct (Rlt_dec x y), (Rlt_dec y z), (Rlt_dec x z); try done. lra.
Qed.

Lemma fold_left_Rplus (xs : list R) (x : R) :
  fold_left Rplus xs x = x + fold_right Rplus 0 xs.
Proof.
  revert x. induction xs as [|y xs IH]; intros x; simpl; [lra|].
  rewrite IH. lra.
Qed.

Lemma fsum_fold_right (xs : list R) : fsum xs = fold_right Rplus 0 xs.
Proof. destruct xs as [|x xs]; simpl; [done|apply fold_left_Rplus]. Qed.

Lemma squares_cons (x : R) (xs : list R) :
  squares (x :: xs) = x * x + squares xs.
Proof. unfold squares. by rewrite !fsum_fold_right. Qed.

Lemma squares_nonneg (xs : list R) : 0 <= squares xs.
Proof.
  induction xs as [|x xs IH]; [unfold squares; simpl; lra|].
  rewrite squares_cons. nra.
Qed.






End ExactFacts.

(** ** Binary32 *)

Section Binary32Facts.

Import Binary32.
Local Open Scope Z_scope.

Lemma sort_lt_rank (x y : spec_float) :
  sort_lt x y = true <-> lex_lt (rank x) (rank y).
Proof.
  unfold sort_lt, SFltb.
  destruct x as [sx|sx| |sx mx ex], y as [sy|sy| |sy my ey];
    try destruct sx; try destruct sy; simpl;
    try (split; [intros; try discriminate; lia|intros; try lia; reflexivity]).
  all: rewrite orb_false_r.
  all: destruct (Z.compare_spec ex ey);
    try (split; [intros; try discriminate; lia|intros; try lia; reflexivity]).
  all: subst; change (Pos.compare_cont Eq mx my) with (Pos.compare mx my);
    destruct (Pos.compare_spec mx my); simpl;
    try (split; [intros; try discriminate; lia|intros; try lia; reflexivity]).
Qed.

Lemma lex_lt_asym (a b : Z * Z * Z) : lex_lt a b -> ~ lex_lt b a.
Proof. destruct a as [[a1 a2] a3], b as [[b1 b2] b3]. simpl. lia. Qed.

Lemma lex_lt_cotrans (a b c : Z * Z * Z) :
  lex_lt a c -> lex_lt a b \/ lex_lt b c.
Proof.
  destruct a as [[a1 a2] a3], b as [[b1 b2] b3], c as [[c1 c2] c3].
  simpl. lia.
Qed.

(** The order NumPy sorts binary32 floats by is a strict weak order,
    NaN included. *)
#[global] Instance b32_FloatOrder : FloatOrder spec_float.
Proof.
  split; simpl.
  - intros x y Hxy%sort_lt_rank. destruct (sort_lt y x) eqn:Hyx; [|done].
    apply sort_lt_rank in Hyx. by apply lex_lt_asym in Hxy.
  - intros x y z Hxy Hyz. destruct (sort_lt x z) eqn:Hxz; [|done].
    apply sort_lt_rank, (lex_lt_cotrans _ (rank y)) in Hxz as [Hl|Hl];
      apply sort_lt_rank in Hl; congruence.
Qed.


Lemma fmul_finite_zero (x : spec_float) :
  is_finite x = true -> is_zero (fmul x f0) = true.
Proof. destruct x; done. Qed.

Lemma fadd_zero_zero (x y : spec_float) :
  is_zero x = true -> is_zero y = true -> is_zero (fadd x y) = true.
Proof. destruct x as [[]| | |], y as [[]| | |]; done. Qed.


Lemma fold_fadd_zeros (xs : list spec_float) (x : spec_float) :
  is_zero x = true -> Forall (fun y => is_zero y = true) xs ->
  is_zero (fold_left fadd xs x) = true.
Proof.
  intros Hx Hxs. revert x Hx.
  induction Hxs as [|y xs Hy _ IH]; intros x Hx; simpl; [done|].
  apply IH. by apply fadd_zero_zero.
Qed.

Lemma fsum_zeros (xs : list spec_float) :
  Forall (fun y => is_zero y = true) xs -> is_zero (fsum xs) = true.
Proof.
  destruct 1 as [|x xs Hx Hxs]; [done|]. by apply fold_fadd_zeros.
Qed.





(** The score of a finite embedding against the zero vector is a zero. *)
Lemma dot_finite_zeros (r : list spec_float) (n : nat) :
  Forall (fun x => is_finite x = true) r ->
  is_zero (dot r (repeat f0 n)) = true.
Proof.
  intros Hr. unfold dot. apply fsum_zeros. revert n.
  induction Hr as [|x r Hx _ IH]; intros [|n]; simpl; try done.
  constructor; [by apply fmul_finite_zero|apply IH].
Qed.


End Binary32Facts.

(** ** Aggregator *)

Section AggregatorFacts.

Context {F O : Type}.
Variables day nextDay : str.
Variable options : O.

Lemma fetch_all_from (fetchers : list (Fetcher F O))
    (merged : list (dict F)) :
  fold_left (fun merged f => merged ++ fetch f day nextDay options)
            fetchers merged
  = merged
      ++ concat (map (fun f => fetch f day nextDay options) fetchers).
Proof.
  revert merged. induction fetchers as [|f fetchers IH]; intros merged; simpl.
  - by rewrite app_nil_r.
  - by rewrite IH, <- app_assoc.
Qed.

Lemma fetch_all_concat (fetchers : list (Fetcher F O)) :
  fetch_all fetchers day nextDay options
    = concat (map (fun f => fetch f day nextDay options) fetchers).
Proof. unfold fetch_all. by rewrite fetch_all_from. Qed.

(** C8. The merged sequence is the concatenation of what the fetchers
    return, in the configured order of the fetchers: the [k]-th record
    of the [i]-th fetcher comes after all the records of the fetchers
    before it, at its own place among those of its fetcher; no record
    is removed, so the merged sequence is as long as all returns together;
    and two fetchers that return [x, y] and [z] merge to [x, y, z]. *)
Theorem fetch_all_concatenates (fetchers : list (Fetcher F O)) :
  fetch_all fetchers day nextDay options
    = concat (map (fun f => fetch f day nextDay options) fetchers) /\
  (forall (i : nat) (f : Fetcher F O) (k : nat) (r : dict F),
     fetchers !! i = Some f ->
     fetch f day nextDay options !! k = Some r ->
     fetch_all fetchers day nextDay options
       !! (length (fetch_all (take i fetchers) day nextDay options) + k)
     = Some r) /\
  length (fetch_all fetchers day nextDay options)
    = sum_list (map (fun f => length (fetch f day nextDay options))
                    fetchers) /\
  (forall (fa fb : Fetcher F O) (x y z : dict F),
     fetch fa day nextDay options = [x; y] ->
     fetch fb day nextDay options = [z] ->
     fetch_all [fa; fb] day nextDay options = [x; y; z]).
Proof.
  split; [apply fetch_all_concat|]. split; [|split].
  - intros i f k r Hf Hr.
    pose proof (take_drop_middle fetchers i f Hf) as Hsplit.
    rewrite !fetch_all_concat. set (pre := take i fetchers) in *.
    rewrite <- Hsplit, map_app, concat_app. simpl.
    rewrite lookup_app_r by lia.
    replace (_ + k - _)%nat with k by lia.
    by apply lookup_app_l_Some.
  - rewrite fetch_all_concat.
    induction fetchers as [|f l IH]; simpl; [done|].
    by rewrite length_app, IH.
  - intros fa fb x y z Ha Hb. unfold fetch_all. simpl. by rewrite Ha, Hb.
Qed.

End AggregatorFacts.

(** ** The samples *)

Import Samples.

Lemma by_length_ok `{FloatOps F} : Embedder_ok (by_length (F := F)).
Proof.
  split; intros texts; simpl; [|by rewrite ?length_map..].
  split; simpl; [by rewrite length_map|].
  apply Forall_map, Forall_forall. done.
Qed.

Lemma alternating_ok {F} (u v : F) : Embedder_ok (alternating u v).
Proof.
  split; intros texts; simpl; [|done..].
  split; simpl; [by rewrite length_imap|].
  apply Forall_forall. intros r (i & t & -> & _)%elem_of_lookup_imap_1.
  done.
Qed.

Lemma east_shaped `{FloatOps F} : well_shaped (east (F := F)).
Proof. split; simpl; [done|]. by repeat constructor. Qed.

Lemma scenario_ok : Forall record_ok (scenario (F := spec_float)).
Proof. solve_records_ok. Qed.

Lemma sparse_ok : Forall record_ok (sparse (F := spec_float)).
Proof. solve_records_ok. Qed.

(** *** Candidate Filter *)

(** The scenario of the specification: the second record is dropped and
    the two others are numbered 1 and 2. *)
Lemma CandidateFilter_keeps_in_order_witness :
  Forall record_ok (scenario (F := spec_float)) /\
  CandidateFilter no_format scenario =
    Ok {| totalPapers := 2;
          paperCandidates := [entry "C1" "z"; entry "C3" "w"];
          paperTexts := [text_block 1 (lit "C1") (lit "z");
                         text_block 2 (lit "C3") (lit "w")] |}.
Proof.
  split; [exact scenario_ok|].
  exact (CandidateFilter_keeps_in_order no_format scenario scenario_ok).
Defined.

Lemma filter_missing_field_is_empty_witness :
  Forall record_ok (sparse (F := spec_float)) /\
  record_ok (none_abstract (F := spec_float)) /\
  filter_body no_format start none_abstract =
    Ok {| totalPapers := 1;
          paperCandidates := [none_abstract];
          paperTexts := [text_block 1 (lit "No abstract") []] |}.
Proof.
  assert (record_ok (none_abstract (F := spec_float))) as Hr by solve_record_ok.
  split; [exact sparse_ok|]. split; [exact Hr|].
  destruct (filter_missing_field_is_empty no_format sparse start
              none_abstract sparse_ok Hr) as (_ & _ & _ & _ & _ & Hkept).
  apply Hkept; [by vm_compute; right|reflexivity].
Defined.

(** *** Profile Vectorizer *)

Lemma ProfileVectorizer_dimension_witness :
  Embedder_ok (by_length (F := spec_float)) /\
  ncols (ProfileVectorizer (F := spec_float) by_length profile) = 2 /\
  rows (ProfileVectorizer (F := spec_float) by_length []) = [[f0; f0]].
Proof.
  split; [exact by_length_ok|].
  destruct (ProfileVectorizer_dimension by_length profile by_length_ok)
    as [(_ & _ & Hcols & _) _].
  destruct (ProfileVectorizer_dimension by_length [] by_length_ok)
    as [_ Hzero].
  split; [exact Hcols|exact (Hzero eq_refl)].
Defined.




(** *** Similarity Ranker *)

Lemma SimilarityRanker_empty_witness :
  Embedder_ok (by_length (F := spec_float)) /\
  SimilarityRanker by_length (top 2) [] [] (zeros 3 7) = Ok [].
Proof.
  split; [exact by_length_ok|].
  exact (proj2 (SimilarityRanker_empty by_length (top 2) (zeros 3 7)
                  by_length_ok)).
Defined.

Lemma SimilarityRanker_topK_descending_witness :
  let candidates : list (dict spec_float) := twins ++ [entry "CC" "x"] in
  let texts := [lit "a"; lit "b"; lit "cc"] in
  (Embedder_ok (by_length (F := spec_float)) /\
   0 < dimensions (by_length (F := spec_float)) /\
   (0 <= TOP_K (top 2))%Z /\
   length texts = length candidates /\
   well_shaped (east (F := spec_float)) /\
   nrows (east (F := spec_float)) = 1 /\
   ncols (east (F := spec_float)) = dimensions (by_length (F := spec_float)))
  /\
  exists recs scores similarity,
    paperSimilarity (Encode by_length texts) east = Ok similarity /\
    SimilarityRanker by_length (top 2) candidates texts east = Ok recs /\
    length recs = Nat.min (Z.to_nat (TOP_K (top 2))) (length candidates) /\
    Forall2 (fun rec s => rec !! k_Similarity = Some (PFloat s))
            recs scores /\
    StronglySorted (fun x y => fge x y = true) scores /\
    (length candidates <= Z.to_nat (TOP_K (top 2)) ->
     recs ≡ₚ zip_with recommendation candidates similarity).
Proof.
  intros candidates texts.
  assert (Embedder_ok (by_length (F := spec_float)) /\
          0 < dimensions (by_length (F := spec_float)) /\
          (0 <= TOP_K (top 2))%Z /\
          length texts = length candidates /\
          well_shaped (east (F := spec_float)) /\
          nrows (east (F := spec_float)) = 1 /\
          ncols (east (F := spec_float))
            = dimensions (by_length (F := spec_float))) as Hyp.
  { split; [exact by_length_ok|]. split; [simpl; lia|].
    split; [simpl; lia|]. split; [reflexivity|].
    split; [exact east_shaped|]. split; reflexivity. }
  split; [exact Hyp|].
  destruct Hyp as (H1 & H2 & H3 & H4 & H5 & H6 & H7).
  exact (SimilarityRanker_topK_descending by_length (top 2) candidates texts
           east H1 H2 H3 H4 H5 H6 H7).
Defined.

(** C2 fails: two candidates with the same score come out in the reverse
    of their aggregation order. *)
Lemma ties_counterexample :
  (exists st,
     CandidateFilter no_format twins = Ok st /\
     paperSimilarity (Encode by_length (paperTexts st))
                     (ProfileVectorizer by_length profile)
       = Ok [twin_score; twin_score]) /\
  rankOrder (top 2) [twin_score; twin_score] = [1; 0] /\
  Run by_length (top 2) no_format profile twins
    = Ok [recommendation (entry "B" "x") twin_score;
          recommendation (entry "A" "x") twin_score] /\
  ~ ties_in_aggregation_order [twin_score; twin_score]
      (rankOrder (top 2) [twin_score; twin_score]).
Proof.
  split; [eexists; split; vm_compute; reflexivity|].
  split; [vm_compute; reflexivity|].
  split; [vm_compute; reflexivity|].
  intros Hclaim.
  assert (1 < 0) as Habsurd; [|lia].
  apply (Hclaim 1 0 0 1 twin_score twin_score);
    try (vm_compute; reflexivity); lia.
Qed.

(** The scores 2, 2, 1, 1 admit more than one ascending order of the
    indices: the one that keeps tied scores in index order, which ranks
    each pair of tied candidates in reverse, and the one that lists them
    in reverse index order, which ranks them as they were aggregated. *)
Lemma tie_order_is_open :
  let similarity : list spec_float := [fnat 2; fnat 2; fnat 1; fnat 1] in
  (ascending_order similarity [2; 3; 0; 1] /\
   rankOrder_of (top 4) [2; 3; 0; 1] = [1; 0; 3; 2]) /\
  (ascending_order similarity [3; 2; 1; 0] /\
   rankOrder_of (top 4) [3; 2; 1; 0] = [0; 1; 2; 3]) /\
  argsort similarity = [2; 3; 0; 1].
Proof.
  intros similarity. split; [|split]; [split|split|]; try reflexivity.
  - split; [|repeat constructor].
    change (([2; 3] ++ [0; 1]) ≡ₚ ([0; 1] ++ [2; 3])).
    apply Permutation_app_comm.
  - split; [|repeat constructor].
    symmetry. apply (Permutation_rev [0; 1; 2; 3]).
Qed.

Lemma ties_follow_the_sort_witness :
  let similarity : list spec_float := [fnat 2; fnat 2; fnat 1; fnat 1] in
  let order := [3; 2; 1; 0] in
  (ascending_order similarity order /\
   rankOrder_of (top 3) order !! 0 = Some 0 /\
   rankOrder_of (top 3) order !! 1 = Some 1 /\
   similarity !! 0 = Some (fnat 2) /\
   similarity !! 1 = Some (fnat 2) /\
   ftie (fnat 2 : spec_float) (fnat 2) = true /\
   0 < 1) /\
  (exists a b, order !! a = Some 1 /\ order !! b = Some 0 /\ a < b) /\
  (forall m k sk,
     0 <= m <= 1 ->
     rankOrder_of (top 3) order !! m = Some k ->
     similarity !! k = Some sk ->
     ftie (fnat 2 : spec_float) sk = true).
Proof.
  intros similarity order.
  assert (ascending_order similarity order /\
          rankOrder_of (top 3) order !! 0 = Some 0 /\
          rankOrder_of (top 3) order !! 1 = Some 1 /\
          similarity !! 0 = Some (fnat 2) /\
          similarity !! 1 = Some (fnat 2) /\
          ftie (fnat 2 : spec_float) (fnat 2) = true /\
          0 < 1) as Hyp.
  { split; [|repeat split; try reflexivity; lia].
    split; [|repeat constructor].
    symmetry. apply (Permutation_rev [0; 1; 2; 3]). }
  split; [exact Hyp|].
  destruct Hyp as (H0 & H1 & H2 & H3 & H4 & H5 & H6).
  exact (ties_follow_the_sort (top 3) similarity order 0 1 0 1
           (fnat 2) (fnat 2) H0 H1 H2 H3 H4 H5 H6).
Defined.

(** C3 fails twice over: a candidate without abstract gets one, and a
    candidate that has a [Similarity] field loses its value to the
    score. *)
Lemma only_Similarity_added_counterexample :
  Run by_length (top 5) no_format profile sparse = Ok ranked_sparse /\
  Forall2 (fun c rec => exists s, rec = recommendation c s)
          [scored; only_title; none_abstract] ranked_sparse /\
  Forall2 (fun c rec => ~ only_Similarity_added c rec)
          [scored; only_title] (take 2 ranked_sparse).
Proof.
  split; [vm_compute; reflexivity|]. split.
  { repeat constructor; eexists; reflexivity. }
  constructor; [|constructor; [|constructor]].
  - intros [Hkept _].
    specialize (Hkept k_Similarity (PStr (lit "high"))).
    vm_compute in Hkept. specialize (Hkept eq_refl). discriminate.
  - intros [_ Hadded]. destruct (Hadded k_abstract) as [[v Hv]|Hk].
    + vm_compute. eauto.
    + vm_compute in Hv. discriminate.
    + vm_compute in Hk. discriminate.
Qed.

Lemma recommendation_keeps_fields_witness :
  let recs : list (dict spec_float) :=
    [recommendation scored (fnat 2); recommendation only_title (fnat 1)] in
  SimilarityRanker by_length (top 5) [only_title; scored]
                   [lit "a"; lit "bb"] east = Ok recs /\
  exists similarity,
    paperSimilarity (Encode by_length [lit "a"; lit "bb"]) east
      = Ok similarity /\
    Forall2 (fun i rec => exists c s,
               [only_title; scored] !! i = Some c /\
               similarity !! i = Some s /\
               (forall k v, k <> k_Similarity ->
                  c !! k = Some v -> rec !! k = Some v) /\
               rec !! k_Similarity = Some (PFloat s) /\
               (forall k, is_Some (rec !! k) ->
                  is_Some (c !! k) \/ k = k_Similarity \/ k = k_abstract))
            (rankOrder (top 5) similarity) recs.
Proof.
  intros recs.
  assert (SimilarityRanker by_length (top 5) [only_title; scored]
            [lit "a"; lit "bb"] east = Ok recs) as Hrun
    by (vm_compute; reflexivity).
  split; [exact Hrun|].
  exact (recommendation_keeps_fields by_length (top 5) [only_title; scored]
           [lit "a"; lit "bb"] east recs Hrun).
Defined.

(** *** The whole run *)

Lemma recommendations_have_abstract_witness :
  Run by_length (top 5) no_format profile sparse = Ok ranked_sparse /\
  Forall (fun rec => is_Some (rec !! k_abstract)) ranked_sparse /\
  exists st similarity,
    CandidateFilter no_format sparse = Ok st /\
    paperSimilarity (Encode by_length (paperTexts st))
      (ProfileVectorizer by_length profile) = Ok similarity /\
    Forall2 (fun i rec => exists c s,
               paperCandidates st !! i = Some c /\
               similarity !! i = Some s /\
               rec = recommendation c s /\
               (c !! k_abstract = None ->
                rec !! k_abstract = Some (PStr [])) /\
               (forall v, c !! k_abstract = Some v ->
                rec !! k_abstract = Some v))
            (rankOrder (top 5) similarity) ranked_sparse.
Proof.
  assert (Run by_length (top 5) no_format profile sparse = Ok ranked_sparse)
    as Hrun by (vm_compute; reflexivity).
  split; [exact Hrun|].
  exact (recommendations_have_abstract by_length (top 5) no_format
           profile sparse ranked_sparse Hrun).
Defined.

(** *** Aggregator *)

(** The scenario of the specification, with a record that two sources
    return: it is merged twice. *)
Lemma fetch_all_concatenates_witness :
  fetch_all [returning [only_title (F := spec_float); scored];
             returning [only_title]]
            (lit "2024-05-01") (lit "2024-05-02") tt
  = [only_title; scored; only_title].
Proof.
  exact (proj2 (proj2 (proj2
    (fetch_all_concatenates (lit "2024-05-01") (lit "2024-05-02") tt [])))
    (returning [only_title; scored]) (returning [only_title])
    only_title scored only_title eq_refl eq_refl).
Defined.

(** * Further properties *)

(** ** Candidate Filter *)

Section FilterMore.

Context {F : Type} `{FloatOps F}.
Variable format_value : pyval F -> str.

Lemma filter_body_raises (st : filter_state) (r : dict F) :
  if raises_on r
  then filter_body format_value st r = Raise AttributeError
  else filter_body format_value st r = Ok st \/
       exists title abstractNote,
         filter_body format_value st r
           = Ok (keep format_value st r title abstractNote).
Proof.
  unfold raises_on, filter_body, field_or_empty.
  destruct (py_or (dict_get r k_title (PStr [])) (PStr [])) as [| | | |t|];
    try done.
  cbn [py_strip mbind result_bind]. rewrite strip_empty.
  destruct (blank t); cbn [andb]; [|eauto].
  destruct (py_or (dict_get r k_abstract (PStr [])) (PStr [])) as [| | | |a|];
    try done.
  cbn [py_strip mbind result_bind is_pstr negb].
  destruct (is_empty (strip a)); eauto.
Qed.

Lemma filter_loop_raises (rawDataset : list (dict F)) (st : filter_state)
    (e : exn) :
  for_each (filter_body format_value) rawDataset st = Raise e <->
  e = AttributeError /\ Exists (fun r => raises_on r = true) rawDataset.
Proof.
  revert st. induction rawDataset as [|r l IH]; intros st; simpl.
  - split; [done|]. intros [_ Hex]. inversion Hex.
  - pose proof (filter_body_raises st r) as Hr.
    destruct (raises_on r) eqn:Hraises.
    + rewrite Hr. simpl. split.
      * intros [= <-]. split; [done|]. by left.
      * by intros [-> _].
    + assert (exists st', filter_body format_value st r = Ok st')
        as [st' Hst'] by (destruct Hr as [?|(? & ? & ?)]; eauto).
      rewrite Hst'. simpl. rewrite IH. split.
      * intros [-> Hex]. split; [done|]. by right.
      * intros [-> Hex]. split; [done|].
        inversion Hex as [? ? Hhd|]; subst; [congruence|done].
Qed.

(** X1. The filter fails exactly when some record makes line 77 raise, and
    then with an [AttributeError]; it returns exactly when no record
    does. *)
Theorem CandidateFilter_raises_iff (rawDataset : list (dict F)) (e : exn) :
  (CandidateFilter format_value rawDataset = Raise e <->
   e = AttributeError /\
   Exists (fun r => raises_on r = true) rawDataset) /\
  ((exists st, CandidateFilter format_value rawDataset = Ok st) <->
   Forall (fun r => raises_on r = false) rawDataset).
Proof.
  pose proof (filter_loop_raises rawDataset
                {| totalPapers := 0; paperCandidates := [];
                   paperTexts := [] |}) as Hraise.
  fold (CandidateFilter format_value rawDataset) in Hraise.
  split; [apply Hraise|]. split.
  - intros [st Hst]. apply Forall_forall. intros r Hr.
    destruct (raises_on r) eqn:Hbad; [|done].
    assert (CandidateFilter format_value rawDataset = Raise AttributeError)
      as Habsurd; [|congruence].
    apply Hraise. split; [done|]. apply Exists_exists. eauto.
  - intros Hall.
    destruct (CandidateFilter format_value rawDataset) as [st|e'] eqn:Hrun;
      [eauto|].
    destruct (proj1 (Hraise e') eq_refl) as [_ (r & Hr & Hbad)%Exists_exists].
    rewrite Forall_forall in Hall. apply Hall in Hr. congruence.
Qed.

Lemma filter_loop_invariant (rawDataset : list (dict F))
    (st st' : filter_state) :
  for_each (filter_body format_value) rawDataset st = Ok st' ->
  exists added,
    paperCandidates st' = paperCandidates st ++ added /\
    added `sublist_of` rawDataset /\
    totalPapers st' = totalPapers st + length added /\
    length (paperTexts st') = length (paperTexts st) + length added.
Proof.
  revert st. induction rawDataset as [|r l IH]; intros st; simpl.
  - intros [= <-]. exists []. rewrite app_nil_r. split; [done|].
    split; [done|]. simpl. lia.
  - pose proof (filter_body_raises st r) as Hr.
    destruct (raises_on r); [by rewrite Hr|].
    destruct Hr as [Hr|(t & a & Hr)]; rewrite Hr; simpl.
    + intros (added & Hc & Hsub & Hn & Ht)%IH. exists added.
      split; [done|]. split; [by apply sublist_cons|done].
    + intros (added & Hc & Hsub & Hn & Ht)%IH. exists (r :: added).
      simpl in *. rewrite <- app_assoc in Hc. split; [done|].
      split; [by apply sublist_skip|].
      rewrite length_app in Ht. simpl in *. lia.
Qed.

(** X2. Whatever the records are, a filter that returns has kept a
    subsequence of them, with one text per kept record, and has counted
    them. *)
Theorem CandidateFilter_parallel (rawDataset : list (dict F))
    (st : filter_state) :
  CandidateFilter format_value rawDataset = Ok st ->
  paperCandidates st `sublist_of` rawDataset /\
  length (paperTexts st) = length (paperCandidates st) /\
  totalPapers st = length (paperCandidates st).
Proof.
  intros (added & Hc & Hsub & Hn & Ht)%filter_loop_invariant.
  simpl in *. subst. auto.
Qed.

Lemma filter_twice {A} (f : A -> bool) (l : list A) :
  List.filter f (List.filter f l) = List.filter f l.
Proof.
  induction l as [|x l IH]; simpl; [done|].
  destruct (f x) eqn:Hx; simpl; [by rewrite Hx, IH|done].
Qed.

(** X3. On records whose title and abstract are optional strings,
    filtering what the filter kept changes nothing: every kept record is
    kept again, with the same number and the same text. *)
Theorem CandidateFilter_idempotent (rawDataset : list (dict F))
    (st : filter_state) :
  Forall record_ok rawDataset ->
  CandidateFilter format_value rawDataset = Ok st ->
  CandidateFilter format_value (paperCandidates st) = Ok st.
Proof.
  intros Hok. unfold CandidateFilter.
  rewrite (filter_loop _ _ _ Hok). intros [= <-]. simpl.
  rewrite filter_loop.
  - simpl. by rewrite filter_twice.
  - apply Forall_forall. intros r Hr%list_elem_of_In%filter_In.
    rewrite Forall_forall in Hok. apply Hok, list_elem_of_In, Hr.
Qed.

Lemma uint_chars_newline (u u' : Decimal.uint) (x y : str) :
  uint_chars u ++ 10%N :: x = uint_chars u' ++ 10%N :: y -> u = u'.
Proof.
  revert u'. induction u; destruct u'; simpl; intros [= Heq];
    try discriminate; try done; f_equal; eauto.
Qed.

Lemma text_number_inj (n m : nat) (x y : str) :
  fmt_head ++ str_of_nat n ++ fmt_title ++ x
    = fmt_head ++ str_of_nat m ++ fmt_title ++ y ->
  n = m.
Proof.
  intros Heq%app_inv_head. unfold str_of_nat, fmt_title in Heq.
  simpl in Heq. apply uint_chars_newline in Heq.
  by apply Unsigned.to_uint_inj.
Qed.

Lemma filter_loop_numbered (rawDataset : list (dict F))
    (st st' : filter_state) :
  for_each (filter_body format_value) rawDataset st = Ok st' ->
  totalPapers st = length (paperTexts st) ->
  (forall i t, paperTexts st !! i = Some t ->
     exists rest, t = fmt_head ++ str_of_nat (S i) ++ fmt_title ++ rest) ->
  forall i t, paperTexts st' !! i = Some t ->
    exists rest, t = fmt_head ++ str_of_nat (S i) ++ fmt_title ++ rest.
Proof.
  revert st. induction rawDataset as [|r l IH]; intros st; simpl.
  - by intros [= <-].
  - pose proof (filter_body_raises st r) as Hr.
    destruct (raises_on r); [by rewrite Hr|].
    destruct Hr as [Hr|(title & abstractNote & Hr)]; rewrite Hr; simpl.
    + apply IH.
    + intros Hrun Hn Hst. apply (IH _ Hrun); simpl.
      * rewrite length_app. simpl. lia.
      * intros i t [Hi|[Hi Ht]]%lookup_app_Some; [by apply Hst|].
        apply list_lookup_singleton_Some in Ht as [Hi' <-].
        assert (i = length (paperTexts st)) as -> by (unfold str in *; lia).
        rewrite <- Hn.
        unfold paper_text. eauto.
Qed.

(** X4. Whatever the records are, the [i]-th text block (from zero) starts
    with the heading numbered [i + 1], so that no two text blocks of a
    run are equal, not even those of two equal records. *)
Theorem paperTexts_numbered (rawDataset : list (dict F))
    (st : filter_state) :
  CandidateFilter format_value rawDataset = Ok st ->
  (forall i t, paperTexts st !! i = Some t ->
     exists rest, t = fmt_head ++ str_of_nat (S i) ++ fmt_title ++ rest) /\
  NoDup (paperTexts st).
Proof.
  intros Hrun.
  assert (forall i t, paperTexts st !! i = Some t ->
            exists rest, t = fmt_head ++ str_of_nat (S i) ++ fmt_title ++ rest)
    as Hnum.
  { apply (filter_loop_numbered _ _ _ Hrun); [done|]. by intros i t. }
  split; [exact Hnum|].
  apply NoDup_alt. intros i j t Hi Hj.
  destruct (Hnum i t Hi) as [x Hx], (Hnum j t Hj) as [y Hy].
  rewrite Hx in Hy. apply text_number_inj in Hy. lia.
Qed.

End FilterMore.

(** ** Similarity Ranker *)

Section RankerMore.

Context {F : Type} `{FloatOps F}.
Variable embedder : Embedder F.
Variable config : Config.

Lemma recommend_loop_raises (candidates : list (dict F)) (similarity : list F)
    (order : list nat) (acc : list (dict F)) (e : exn) :
  for_each (recommend candidates similarity) order acc = Raise e ->
  e = IndexError.
Proof.
  revert acc. induction order as [|i order IH]; intros acc; simpl; [done|].
  rewrite recommend_eq. unfold index.
  destruct (candidates !! i) as [c|]; simpl; [|congruence].
  destruct (similarity !! i) as [s|]; simpl; [|congruence].
  apply IH.
Qed.

Lemma recommend_loop_run (candidates : list (dict F)) (similarity : list F)
    (order : list nat) (recs acc : list (dict F)) :
  Forall2 (made_of candidates similarity) order recs ->
  for_each (recommend candidates similarity) order acc = Ok (acc ++ recs).
Proof.
  intros Hrecs. revert acc.
  induction Hrecs as [|i rec order recs (c & s & Hc & Hs & ->) _ IH];
    intros acc; simpl; [by rewrite app_nil_r|].
  rewrite recommend_eq. unfold index. rewrite Hc, Hs. simpl.
  rewrite IH. by rewrite <- app_assoc.
Qed.

(** X5. The ranker raises a [ValueError] exactly when there are embeddings
    and their width is not that of the profile vector; an
    [AttributeError] it never raises. *)
Theorem SimilarityRanker_ValueError_iff (candidates : list (dict F))
    (texts : list str) (personasVecs : ndarray F) :
  (SimilarityRanker embedder config candidates texts personasVecs
     = Raise ValueError <->
   size (Encode embedder texts) <> 0 /\
   ncols (Encode embedder texts) <> ncols personasVecs) /\
  SimilarityRanker embedder config candidates texts personasVecs
    <> Raise AttributeError.
Proof.
  unfold SimilarityRanker, paperSimilarity, matmul_T_ravel.
  destruct (size (Encode embedder texts) =? 0) eqn:Hsize; simpl.
  - apply Nat.eqb_eq in Hsize. split.
    + split; [|by intros [? _]].
      by intros ?%recommend_loop_raises.
    + by intros ?%recommend_loop_raises.
  - apply Nat.eqb_neq in Hsize.
    destruct (ncols (Encode embedder texts) =? ncols personasVecs) eqn:Hcols;
      simpl.
    + apply Nat.eqb_eq in Hcols. split.
      * split; [by intros ?%recommend_loop_raises|by intros [_ ?]].
      * by intros ?%recommend_loop_raises.
    + apply Nat.eqb_neq in Hcols. done.
Qed.

(** X7. No candidate that is left out has a greater score than one that is
    recommended. *)
Theorem rankOrder_best `{!FloatOrder F} (similarity : list F)
    (i j : nat) (si sj : F) :
  i ∈ rankOrder config similarity ->
  j ∉ rankOrder config similarity ->
  similarity !! i = Some si ->
  similarity !! j = Some sj ->
  flt si sj = false.
Proof.
  intros Hi Hj Hsi Hsj.
  destruct (rankOrder_prefix config similarity) as [n Hn].
  rewrite Hn in Hi, Hj.
  pose proof (argsort_sorted similarity) as Hsorted.
  apply StronglySorted_rev in Hsorted.
  rewrite <- (take_drop n (rev (argsort similarity))) in Hsorted.
  assert (j ∈ drop n (rev (argsort similarity))) as Hdrop.
  { assert (j ∈ rev (argsort similarity)) as Hin.
    { assert (j ∈ argsort similarity) as Hin.
      { rewrite argsort_perm. apply list_elem_of_In, in_seq.
        apply lookup_lt_Some in Hsj. lia. }
      by apply list_elem_of_In, in_rev, list_elem_of_In in Hin. }
    rewrite <- (take_drop n (rev (argsort similarity))) in Hin.
    apply elem_of_app in Hin as [Hin|Hin]; done. }
  destruct (StronglySorted_app_1_elem_of _ _ _ _ _ Hsorted Hi Hdrop)
    as [Hlt _].
  by rewrite !nth_lookup, Hsi, Hsj in Hlt.
Qed.

(** X8. The ranking names no candidate twice and no candidate that does not
    exist. *)
Theorem rankOrder_NoDup `{!FloatOrder F} (similarity : list F) :
  NoDup (rankOrder config similarity) /\
  Forall (fun i => i < length similarity) (rankOrder config similarity).
Proof.
  split; [|apply rankOrder_bound; done].
  destruct (rankOrder_prefix config similarity) as [n ->].
  apply (sublist_NoDup _ (rev (argsort similarity))); [|apply sublist_take].
  rewrite <- Permutation_rev, argsort_perm. apply NoDup_seq.
Qed.

Lemma rankOrder_length_negative `{!FloatOrder F} (similarity : list F) :
  (TOP_K config < 0)%Z ->
  length (rankOrder config similarity)
    = length similarity - Z.to_nat (- TOP_K config).
Proof.
  intros HK. unfold rankOrder, slice_to.
  destruct (0 <=? TOP_K config)%Z eqn:Hle; [apply Z.leb_le in Hle; lia|].
  rewrite length_take, length_rev, argsort_length. lia.
Qed.

(** X9. A negative [TOP_K] does not empty the ranking: it leaves out the
    last |K| candidates of the whole ranking. *)
Theorem SimilarityRanker_negative_K `{!FloatOrder F}
    (candidates : list (dict F)) (texts : list str)
    (personasVecs : ndarray F) :
  Embedder_ok embedder ->
  0 < dimensions embedder ->
  (TOP_K config < 0)%Z ->
  length texts = length candidates ->
  well_shaped personasVecs ->
  nrows personasVecs = 1 ->
  ncols personasVecs = dimensions embedder ->
  exists recs,
    SimilarityRanker embedder config candidates texts personasVecs
      = Ok recs /\
    length recs = length candidates - Z.to_nat (- TOP_K config).
Proof.
  intros Hemb Hdim HK Hlen Hpv Hone Hcols.
  destruct (SimilarityRanker_returns embedder config candidates texts
              personasVecs) as (similarity & recs & _ & Hn & Hrun & Hrecs);
    try done.
  exists recs. split; [done|].
  rewrite <- (Forall2_length _ _ _ Hrecs), <- Hn.
  by apply rankOrder_length_negative.
Qed.

End RankerMore.

Section RankerTwoConfigs.

Context {F : Type} `{FloatOps F}.
Variable embedder : Embedder F.

(** X10. Asking for fewer recommendations gives the first ones of the longer
    answer. *)
Theorem SimilarityRanker_prefix (config config' : Config)
    (candidates : list (dict F)) (texts : list str)
    (personasVecs : ndarray F) (recs' : list (dict F)) :
  (0 <= TOP_K config <= TOP_K config')%Z ->
  SimilarityRanker embedder config' candidates texts personasVecs
    = Ok recs' ->
  SimilarityRanker embedder config candidates texts personasVecs
    = Ok (take (Z.to_nat (TOP_K config)) recs').
Proof.
  intros HK (similarity & Hsim & Hrecs)%SimilarityRanker_inv.
  unfold SimilarityRanker. rewrite Hsim. simpl.
  apply (recommend_loop_run _ _ _ _ []).
  unfold rankOrder in *. rewrite !slice_to_nonneg in * by lia.
  replace (take (Z.to_nat (TOP_K config)) (rev (argsort similarity)))
    with (take (Z.to_nat (TOP_K config))
            (take (Z.to_nat (TOP_K config')) (rev (argsort similarity)))).
  - by apply Forall2_take.
  - rewrite take_take. f_equal. lia.
Qed.

End RankerTwoConfigs.

(** ** The whole run *)

Section RunMore.

Context {F : Type} `{FloatOps F}.
Variable embedder : Embedder F.
Variable config : Config.
Variable format_value : pyval F -> str.

(** X13. With an embedder that keeps its contract and has a positive
    dimensionality, a non-negative [TOP_K] and fetched records whose
    title and abstract are optional strings, a run raises nothing, for
    any profile texts, and recommends min(K, kept records) papers: the
    profile vector that the vectorizer hands to the ranker has the shape
    the ranker needs, and the filter hands over one text per candidate. *)
Theorem Run_never_raises `{!FloatOrder F}
    (personasTexts : list str) (rawDataset : list (dict F)) :
  Embedder_ok embedder ->
  0 < dimensions embedder ->
  (0 <= TOP_K config)%Z ->
  Forall record_ok rawDataset ->
  exists recs,
    Run embedder config format_value personasTexts rawDataset = Ok recs /\
    length recs
      = Nat.min (Z.to_nat (TOP_K config))
          (length (List.filter (fun r => negb (dropped r)) rawDataset)).
Proof.
  intros Hemb Hdim HK Hok.
  destruct (CandidateFilter_ok format_value rawDataset Hok)
    as (st & Hst & Hkept & Hlen).
  destruct (ProfileVectorizer_shape embedder personasTexts Hemb)
    as (Hs & Hr & Hc).
  destruct (SimilarityRanker_returns embedder config (paperCandidates st)
              (paperTexts st) (ProfileVectorizer embedder personasTexts))
    as (similarity & recs & _ & Hn & Hrun & Hrecs); try done.
  exists recs. unfold Run. rewrite Hst. simpl. split; [done|].
  rewrite <- (Forall2_length _ _ _ Hrecs), <- Hkept, <- Hn.
  by apply rankOrder_length.
Qed.

(** X14. On fetched records whose title and abstract are optional
    strings, a run recommends only records that the filter kept: each
    recommendation is made of a fetched record that is not dropped. *)
Theorem Run_recommends_kept_only (personasTexts : list str)
    (rawDataset : list (dict F)) (recs : list (dict F)) :
  Forall record_ok rawDataset ->
  Run embedder config format_value personasTexts rawDataset = Ok recs ->
  Forall (fun rec => exists c s,
            c ∈ rawDataset /\ dropped c = false /\
            rec = recommendation c s) recs.
Proof.
  intros Hok (st & Hst & Hrun)%Run_inv.
  destruct (CandidateFilter_ok format_value rawDataset Hok)
    as (st' & Hst' & Hkept & _).
  rewrite Hst in Hst'. injection Hst' as <-.
  apply SimilarityRanker_inv in Hrun as (similarity & _ & Hrecs).
  eapply Forall2_Forall_r; [exact Hrecs|].
  apply Forall_forall. intros i _ rec (c & s & Hc & _ & ->).
  exists c, s. apply list_elem_of_lookup_2 in Hc. rewrite Hkept in Hc.
  apply list_elem_of_In, filter_In in Hc as [Hin Hdrop].
  split; [by apply list_elem_of_In|]. split; [|done].
  by destruct (dropped c).
Qed.

(** X15. A day on which every fetched record is blank ends without a
    recommendation and without an error. *)
Theorem Run_all_dropped (personasTexts : list str)
    (rawDataset : list (dict F)) :
  Embedder_ok embedder ->
  Forall record_ok rawDataset ->
  Forall (fun r => dropped r = true) rawDataset ->
  Run embedder config format_value personasTexts rawDataset = Ok [].
Proof.
  intros Hemb Hok Hdrop. unfold Run, CandidateFilter.
  rewrite (filter_loop _ _ _ Hok). simpl.
  replace (List.filter (fun r => negb (dropped r)) rawDataset)
    with (@nil (dict F)).
  - simpl. unfold SimilarityRanker.
    rewrite paperSimilarity_empty by done.
    destruct (rankOrder_prefix config (@nil F)) as [n Hn]. simpl in *.
    by rewrite Hn, take_nil.
  - symmetry. induction Hdrop as [|r l Hr _ IH]; simpl; [done|].
    inversion Hok; subst. rewrite Hr. simpl. by apply IH.
Qed.

End RunMore.

(** ** A reader without profile texts *)

Section EmptyProfile.

Import Binary32.

(** X12. In binary32, a reader without profile texts gets
    recommendations whose similarity is a zero, positive or negative,
    all of them, as long as the embeddings of the candidates are
    finite. *)
Theorem empty_profile_scores_zero (embedder : Embedder spec_float)
    (config : Config) (format_value : pyval spec_float -> str)
    (rawDataset : list (dict spec_float)) (recs : list (dict spec_float)) :
  Embedder_ok embedder ->
  (forall texts,
     Forall (Forall (fun x => is_finite x = true))
            (rows (Encode embedder texts))) ->
  Run embedder config format_value [] rawDataset = Ok recs ->
  Forall (fun rec => exists sign,
            rec !! k_Similarity = Some (PFloat (S754_zero sign))) recs.
Proof.
  intros Hemb Hfinite (st & _ & Hrun)%Run_inv.
  apply SimilarityRanker_inv in Hrun as (similarity & Hsim & Hrecs).
  assert (Forall (fun s => is_zero s = true) similarity) as Hzero.
  { unfold ProfileVectorizer, size in Hsim.
    rewrite (Encode_nrows _ Hemb) in Hsim. simpl in Hsim.
    unfold paperSimilarity, matmul_T_ravel in Hsim.
    destruct (negb _); [|by injection Hsim as <-].
    destruct (_ =? _); [|done]. injection Hsim as <-. simpl.
    apply Forall_forall. intros s Hs%list_elem_of_In%in_flat_map.
    destruct Hs as (r & Hr & [<-|[]]). apply dot_finite_zeros.
    specialize (Hfinite (paperTexts st)). rewrite Forall_forall in Hfinite.
    by apply Hfinite, list_elem_of_In. }
  eapply Forall2_Forall_r; [exact Hrecs|].
  apply Forall_forall. intros i _ rec (c & s & _ & Hs & ->).
  rewrite recommendation_Similarity.
  rewrite Forall_forall in Hzero.
  pose proof (Hzero s (list_elem_of_lookup_2 _ _ _ Hs)) as Hz.
  destruct s; try done. by eexists.
Qed.

End EmptyProfile.

(** ** Profile Builder *)

Section ProfileFacts.

Import Profile.
Context {F : Type}.

Lemma body_spec (st : state) (paper : json F) :
  body st paper =
    if breaks paper then Failed TypeError
    else Done (from_option (with_entry st) st (entry_of paper)).
Proof.
  unfold body, breaks, entry_of, has_str.
  destruct paper as [| | | |s|l|m];
    cbn [mbind attempt_bind py_in py_getitem]; try done.
  destruct (m !! k_data) as [d|]; [|done].
  destruct d as [| | | |s|l|d];
    cbn [mbind attempt_bind py_in py_getitem]; try done.
  - destruct (substring k_title s); [|done].
    by destruct (substring k_abstractNote s).
  - destruct (existsb _ l); [|done]. by destruct (existsb _ l).
  - destruct (d !! k_title) as [t|]; [|done].
    destruct (d !! k_abstractNote) as [a|]; [|by destruct t].
    destruct t as [| | | |t| |]; cbn [mbind attempt_bind py_concat]; try done.
    destruct a as [| | | |a| |]; cbn [mbind attempt_bind py_concat]; try done.
    unfold with_entry, text_block. cbn [is_str andb negb from_option fst snd].
    by rewrite <- !app_assoc.
Qed.

Lemma builder_loop (items : list (json F)) (st : state) :
  for_items body items st =
    if existsb breaks items then Failed TypeError
    else
      let entries := omap entry_of items in
      Done {| totalPapers := totalPapers st + length entries;
              personasTexts := personasTexts st ++
                imap (fun i e => strip (text_block (S (totalPapers st + i))
                                          e.1 e.2)) entries |}.
Proof.
  revert st. induction items as [|paper items IH]; intros st.
  - simpl. rewrite Nat.add_0_r, app_nil_r. by destruct st.
  - cbn [for_items existsb]. rewrite body_spec.
    destruct (breaks paper); [done|]. cbn [orb mbind attempt_bind].
    rewrite IH. destruct (existsb breaks items); [done|]. cbv zeta.
    change (omap entry_of (paper :: items))
      with (match entry_of paper with
            | Some e => e :: omap entry_of items
            | None => omap entry_of items
            end).
    destruct (entry_of paper) as [e|]; cbn [from_option]; [|done].
    set (entries := omap entry_of items).
    cbn [with_entry totalPapers personasTexts length].
    rewrite imap_cons, <- app_assoc, Nat.add_0_r.
    f_equal. f_equal; [lia|]. cbn [app]. do 2 f_equal.
    apply imap_ext. intros i x _. unfold compose. by rewrite Nat.add_succ_r.
Qed.

(** X16. The profile builder fails exactly when some item of the library
    [breaks] the loop of lines 50-56, and then with a [TypeError]; a
    [KeyError] cannot happen, as every subscript of a [dict] is guarded
    by a membership test. *)
Theorem ProfileBuilder_fails_iff (zoteroPapers : list (json F))
    (e : json_exn) :
  ProfileBuilder zoteroPapers = Failed e <->
  e = TypeError /\ Exists (fun paper => breaks paper = true) zoteroPapers.
Proof.
  unfold ProfileBuilder. rewrite builder_loop.
  destruct (existsb breaks zoteroPapers) eqn:Hbreaks.
  - apply existsb_exists in Hbreaks as (paper & Hin & Hpaper). split.
    + intros [= <-]. split; [done|].
      apply Exists_exists. exists paper. by rewrite list_elem_of_In.
    + by intros [-> _].
  - split; [done|]. intros [_ (paper & Hin & Hpaper)%Exists_exists].
    assert (existsb breaks zoteroPapers = true) as Habsurd; [|congruence].
    apply existsb_exists. exists paper. by rewrite <- list_elem_of_In.
Qed.

(** X17. When no item breaks the loop, the profile texts are those of the
    items that have both a title and an abstract note as strings under
    [data], in the order of the library: the [i]-th of them (from zero)
    is the text block numbered [i + 1], stripped; an item that lacks
    one of the two keys gives no text, and a blank title and abstract
    note give one. *)
Theorem ProfileBuilder_texts (zoteroPapers : list (json F)) :
  Forall (fun paper => breaks paper = false) zoteroPapers ->
  let entries := omap entry_of zoteroPapers in
  ProfileBuilder zoteroPapers =
    Done {| totalPapers := length entries;
            personasTexts :=
              imap (fun i e => strip (text_block (S i) e.1 e.2)) entries |}.
Proof.
  intros Hok. unfold ProfileBuilder. rewrite builder_loop.
  replace (existsb breaks zoteroPapers) with false; [done|].
  symmetry. apply not_true_is_false.
  intros (paper & Hin & Hpaper)%existsb_exists.
  rewrite Forall_forall in Hok.
  apply list_elem_of_In, Hok in Hin. congruence.
Qed.

End ProfileFacts.

(** ** The further samples *)

Import MoreSamples.

Lemma kept_scenario_run :
  CandidateFilter no_format scenario = Ok kept_scenario.
Proof. vm_compute. reflexivity. Qed.

Lemma CandidateFilter_raises_iff_witness :
  CandidateFilter (F := spec_float) no_format (scenario ++ [numbered_title])
    = Raise AttributeError.
Proof.
  apply (CandidateFilter_raises_iff no_format
           (scenario ++ [numbered_title]) AttributeError).
  split; [done|].
  apply Exists_app. right. constructor. vm_compute. reflexivity.
Defined.

Lemma CandidateFilter_parallel_witness :
  CandidateFilter no_format scenario = Ok kept_scenario /\
  paperCandidates kept_scenario `sublist_of` scenario /\
  length (paperTexts kept_scenario) = length (paperCandidates kept_scenario) /\
  totalPapers kept_scenario = length (paperCandidates kept_scenario).
Proof.
  split; [exact kept_scenario_run|].
  exact (CandidateFilter_parallel no_format scenario kept_scenario
           kept_scenario_run).
Defined.

Lemma CandidateFilter_idempotent_witness :
  (Forall record_ok (scenario (F := spec_float)) /\
   CandidateFilter no_format scenario = Ok kept_scenario) /\
  CandidateFilter no_format (paperCandidates kept_scenario)
    = Ok kept_scenario.
Proof.
  split; [split; [exact scenario_ok|exact kept_scenario_run]|].
  exact (CandidateFilter_idempotent no_format scenario kept_scenario
           scenario_ok kept_scenario_run).
Defined.

Lemma paperTexts_numbered_witness :
  CandidateFilter no_format scenario = Ok kept_scenario /\
  NoDup (paperTexts kept_scenario).
Proof.
  split; [exact kept_scenario_run|].
  exact (proj2 (paperTexts_numbered no_format scenario kept_scenario
                  kept_scenario_run)).
Defined.

Lemma SimilarityRanker_ValueError_iff_witness :
  SimilarityRanker (F := spec_float) by_length (top 2) twins
                   [lit "a"; lit "b"] wide = Raise ValueError.
Proof.
  apply (SimilarityRanker_ValueError_iff by_length (top 2) twins
           [lit "a"; lit "b"] wide).
  split; vm_compute; lia.
Defined.

Lemma rankOrder_best_witness :
  let similarity : list spec_float := [fnat 3; fnat 1; fnat 7] in
  ((0 ∈ rankOrder (top 2) similarity) /\
   (1 ∉ rankOrder (top 2) similarity) /\
   similarity !! 0 = Some (fnat 3) /\
   similarity !! 1 = Some (fnat 1)) /\
  flt (fnat 3 : spec_float) (fnat 1) = false.
Proof.
  intros similarity.
  assert (rankOrder (top 2) similarity = [2; 0]) as Horder
    by (vm_compute; reflexivity).
  assert ((0 ∈ rankOrder (top 2) similarity) /\
          (1 ∉ rankOrder (top 2) similarity) /\
          similarity !! 0 = Some (fnat 3) /\
          similarity !! 1 = Some (fnat 1)) as Hyp.
  { rewrite Horder. split; [apply list_elem_of_In; simpl; lia|].
    split; [|done].
    intros Hin%list_elem_of_In. simpl in Hin. lia. }
  split; [exact Hyp|]. destruct Hyp as (H1 & H2 & H3 & H4).
  exact (rankOrder_best (top 2) similarity 0 1 (fnat 3) (fnat 1)
           H1 H2 H3 H4).
Defined.

Lemma rankOrder_NoDup_witness :
  NoDup (rankOrder (top 2) [fnat 3; fnat 3; fnat 1 : spec_float]).
Proof.
  exact (proj1 (rankOrder_NoDup (top 2) [fnat 3; fnat 3; fnat 1])).
Defined.

Lemma SimilarityRanker_negative_K_witness :
  let candidates : list (dict spec_float) := twins ++ [entry "CC" "x"] in
  let texts := [lit "a"; lit "b"; lit "cc"] in
  (Embedder_ok (by_length (F := spec_float)) /\
   0 < dimensions (by_length (F := spec_float)) /\
   (TOP_K (top (-1)) < 0)%Z /\
   length texts = length candidates /\
   well_shaped (east (F := spec_float)) /\
   nrows (east (F := spec_float)) = 1 /\
   ncols (east (F := spec_float)) = dimensions (by_length (F := spec_float)))
  /\
  exists recs,
    SimilarityRanker by_length (top (-1)) candidates texts east = Ok recs /\
    length recs = 2.
Proof.
  intros candidates texts.
  assert (Embedder_ok (by_length (F := spec_float)) /\
          0 < dimensions (by_length (F := spec_float)) /\
          (TOP_K (top (-1)) < 0)%Z /\
          length texts = length candidates /\
          well_shaped (east (F := spec_float)) /\
          nrows (east (F := spec_float)) = 1 /\
          ncols (east (F := spec_float))
            = dimensions (by_length (F := spec_float))) as Hyp.
  { split; [exact by_length_ok|]. split; [simpl; lia|].
    split; [simpl; lia|]. split; [reflexivity|].
    split; [exact east_shaped|]. split; reflexivity. }
  split; [exact Hyp|].
  destruct Hyp as (H1 & H2 & H3 & H4 & H5 & H6 & H7).
  exact (SimilarityRanker_negative_K by_length (top (-1)) candidates texts
           east H1 H2 H3 H4 H5 H6 H7).
Defined.

Lemma SimilarityRanker_prefix_witness :
  let candidates : list (dict spec_float) := [only_title; scored] in
  let recs' : list (dict spec_float) :=
    [recommendation scored (fnat 2); recommendation only_title (fnat 1)] in
  ((0 <= TOP_K (top 1) <= TOP_K (top 5))%Z /\
   SimilarityRanker by_length (top 5) candidates [lit "a"; lit "bb"] east
     = Ok recs') /\
  SimilarityRanker by_length (top 1) candidates [lit "a"; lit "bb"] east
    = Ok [recommendation scored (fnat 2)].
Proof.
  intros candidates recs'.
  assert (SimilarityRanker by_length (top 5) candidates [lit "a"; lit "bb"]
            east = Ok recs') as Hrun by (vm_compute; reflexivity).
  assert (0 <= TOP_K (top 1) <= TOP_K (top 5))%Z as HK by (simpl; lia).
  split; [split; [exact HK|exact Hrun]|].
  exact (SimilarityRanker_prefix by_length (top 1) (top 5) candidates
           [lit "a"; lit "bb"] east recs' HK Hrun).
Defined.

Lemma opposed32_finite (texts : list str) :
  Forall (Forall (fun x => Binary32.is_finite x = true))
         (rows (Encode opposed32 texts)).
Proof.
  apply Forall_forall. intros r [i Hi]%list_elem_of_lookup.
  cbn [Encode rows opposed32 alternating] in Hi.
  rewrite list_lookup_imap in Hi.
  destruct (texts !! i); [|done]. injection Hi as <-.
  destruct (Nat.even i); by repeat constructor.
Qed.

(** Without profile texts the scenario of the specification is ranked
    with the scores -0.0 and 0.0. *)
Lemma empty_profile_scores_zero_witness :
  let recs : list (dict spec_float) :=
    [recommendation (entry "C3" "w") (S754_zero true);
     recommendation (entry "C1" "z") (S754_zero false)] in
  (Embedder_ok opposed32 /\
   (forall texts,
      Forall (Forall (fun x => Binary32.is_finite x = true))
             (rows (Encode opposed32 texts))) /\
   Run opposed32 (top 2) no_format [] scenario = Ok recs) /\
  Forall (fun rec => exists sign,
            rec !! k_Similarity = Some (PFloat (S754_zero sign))) recs.
Proof.
  intros recs.
  assert (Run opposed32 (top 2) no_format [] scenario = Ok recs) as Hrun
    by (vm_compute; reflexivity).
  split; [split; [apply alternating_ok|split; [exact opposed32_finite|exact Hrun]]|].
  exact (empty_profile_scores_zero opposed32 (top 2) no_format scenario recs
           (alternating_ok _ _) opposed32_finite Hrun).
Defined.

Lemma Run_never_raises_witness :
  (Embedder_ok (by_length (F := spec_float)) /\
   0 < dimensions (by_length (F := spec_float)) /\
   (0 <= TOP_K (top 1))%Z /\
   Forall record_ok (scenario (F := spec_float))) /\
  exists recs,
    Run by_length (top 1) no_format profile scenario = Ok recs /\
    length recs = 1.
Proof.
  assert (Embedder_ok (by_length (F := spec_float)) /\
          0 < dimensions (by_length (F := spec_float)) /\
          (0 <= TOP_K (top 1))%Z /\
          Forall record_ok (scenario (F := spec_float))) as Hyp.
  { split; [exact by_length_ok|]. split; [simpl; lia|].
    split; [simpl; lia|exact scenario_ok]. }
  split; [exact Hyp|]. destruct Hyp as (H1 & H2 & H3 & H4).
  exact (Run_never_raises by_length (top 1) no_format profile scenario
           H1 H2 H3 H4).
Defined.

Lemma Run_recommends_kept_only_witness :
  (Forall record_ok (sparse (F := spec_float)) /\
   Run by_length (top 5) no_format profile sparse = Ok ranked_sparse) /\
  Forall (fun rec => exists c s,
            c ∈ sparse /\ dropped c = false /\ rec = recommendation c s)
         ranked_sparse.
Proof.
  assert (Run by_length (top 5) no_format profile sparse = Ok ranked_sparse)
    as Hrun by (vm_compute; reflexivity).
  split; [split; [exact sparse_ok|exact Hrun]|].
  exact (Run_recommends_kept_only by_length (top 5) no_format profile sparse
           ranked_sparse sparse_ok Hrun).
Defined.

Lemma blanks_ok : Forall record_ok (blanks (F := spec_float)).
Proof. solve_records_ok. Qed.

Lemma Run_all_dropped_witness :
  (Embedder_ok (by_length (F := spec_float)) /\
   Forall record_ok (blanks (F := spec_float)) /\
   Forall (fun r => dropped r = true) (blanks (F := spec_float))) /\
  Run by_length (top 5) no_format profile blanks = Ok [].
Proof.
  assert (Forall (fun r => dropped r = true) (blanks (F := spec_float)))
    as Hdrop by (repeat constructor).
  split; [split; [exact by_length_ok|split; [exact blanks_ok|exact Hdrop]]|].
  exact (Run_all_dropped by_length (top 5) no_format profile blanks
           by_length_ok blanks_ok Hdrop).
Defined.

Lemma ProfileBuilder_fails_iff_witness :
  Profile.ProfileBuilder (F := spec_float) broken_library
    = Profile.Failed Profile.TypeError.
Proof.
  apply ProfileBuilder_fails_iff. split; [done|].
  right. left. reflexivity.
Defined.

Lemma ProfileBuilder_texts_witness :
  Forall (fun paper => Profile.breaks paper = false)
         (library (F := spec_float)) /\
  Profile.ProfileBuilder (F := spec_float) library =
    Profile.Done
      {| Profile.totalPapers := 3;
         Profile.personasTexts :=
           [text_block 1 (lit "A") (lit "x");
            text_block 2 [] [];
            text_block 3 (lit "B") (lit "y")] |}.
Proof.
  assert (Forall (fun paper => Profile.breaks paper = false)
                 (library (F := spec_float))) as Hok
    by (repeat constructor).
  split; [exact Hok|].
  exact (ProfileBuilder_texts library Hok).
Defined.
